(** * Real-time fraud-detection feature engine: store and calculators

    A shallow embedding of [src/utils/time_utils.py],
    [src/utils/state_store.py] and [src/streaming_features.py], followed by
    the properties of the windowed event store and of the feature
    calculators.

    Conventions of the embedding.
    - Python floats (epochs, amounts, ratios) are rationals [Q]; the
      comparisons of the source are the boolean comparisons below.
      Rounding, overflow and underflow of float arithmetic are outside
      the embedding, so what is proved of the whole feature vector and of
      [process_event] is stated for the calls that return, never as a
      statement that the arithmetic of the amount features cannot raise.
    - A Python dict keyed by strings is a [gmap string _]; the feature
      values keep the distinction between Python ints and floats.
    - [time.time()] is an argument [now] of every store method that reads
      the clock; [process_event], which reads it several times, takes the
      successive readings as a function [clock].
    - Exceptions are values of [exn], and code that can raise returns a
      [result]. *)

From Stdlib Require Import ZArith QArith Qabs Qminmax Lqa Ascii String.
From stdpp Require Import base option list strings gmap fin_maps.

Local Open Scope Z_scope.

(** ** Python values and exceptions *)

Inductive exn : Type :=
  | ValueError
  | AttributeError
  | TypeError
  | KeyError
  | OverflowError
  | OSError
  | StatisticsError
  | ZeroDivisionError
  | IndexError.

Inductive result (A : Type) : Type :=
  | Ok (a : A)
  | Raise (e : exn).
Arguments Ok {A} a.
Arguments Raise {A} e.

#[export] Instance result_ret : MRet result := fun A a => Ok a.
#[export] Instance result_bind : MBind result := fun A B f m =>
  match m with
  | Ok a => f a
  | Raise e => Raise e
  end.

(** [mapM] of the error monad: the first exception aborts the loop. *)
Fixpoint result_mapM {A B : Type} (f : A -> result B) (l : list A)
  : result (list B) :=
  match l with
  | [] => Ok []
  | a :: l' => b ← f a; bs ← result_mapM f l'; Ok (b :: bs)
  end.

(** A feature value: Python [int] or [float]. *)
Inductive pynum : Type :=
  | PInt (z : Z)
  | PFloat (q : Q).

(** Float comparisons. *)
Definition Qltb (x y : Q) : bool := negb (Qle_bool y x).
Definition Qgtb (x y : Q) : bool := Qltb y x.
Definition Qleb (x y : Q) : bool := Qle_bool x y.

(** True division [a / b]: raises on a zero divisor. *)
Definition pydiv (a b : Q) : result Q :=
  if Qeq_bool b 0 then Raise ZeroDivisionError else Ok (a / b)%Q.

(** The value of the ["timestamp"] key handed to [parse_timestamp]: a
    string; a value that has no [replace] attribute (JSON null, a
    number, a boolean, a list, a dict); or a value whose [replace] is not
    [str.replace] and rejects two [str] arguments ([bytes], [bytearray],
    [datetime], [date]). *)
Inductive pyobj : Type :=
  | PyStr (s : string)
  | PyNoReplace
  | PyOtherReplace.

(** ** Events

    An event is a dict; every key the core reads may be absent. *)
Record Event : Type := mkEvent {
  user_id : option string;
  transaction_id : option string;
  amount : option Q;
  timestamp : option pyobj;
  timestamp_unix : option Q;
  merchant : option string;
  location : option string;
  payment_method : option string
}.

(** [event.get('timestamp_unix', 0)] *)
Definition get_timestamp_unix (e : Event) : Q := default 0%Q (timestamp_unix e).

(** [e.get(key)] used as a condition, and [e.get(key, '')] as a value, for
    the optional string fields: a missing key and an empty string are both
    falsy. *)
Definition truthy_str (o : option string) : option string :=
  match o with
  | Some s => if String.eqb s "" then None else Some s
  | None => None
  end.

(** ** time_utils.py *)
Module time_utils.

(** [s.replace('Z', '+00:00')]: every occurrence is replaced. *)
Fixpoint replace_Z (s : string) : string :=
  match s with
  | EmptyString => EmptyString
  | String c s' =>
      if Ascii.eqb c "Z"%char then "+00:00" +:+ replace_Z s'
      else String c (replace_Z s')
  end.

(** [timestamp_str.replace('Z', '+00:00')]: attribute lookup fails on a
    value without [replace]; the [replace] of [bytes] or of a [datetime]
    raises [TypeError] on these arguments. *)
Definition py_replace_Z (o : pyobj) : result string :=
  match o with
  | PyStr s => Ok (replace_Z s)
  | PyNoReplace => Raise AttributeError
  | PyOtherReplace => Raise TypeError
  end.

Section parse.
(** The [datetime] library: the parser and the conversion to an epoch,
    each of which may raise. *)
Variable datetime : Type.
Variable fromisoformat : string -> result datetime.
Variable dt_timestamp : datetime -> result Q.

(** The body of the [try] block of [parse_timestamp]. *)
Definition parse_timestamp_try (timestamp_str : pyobj) : result Q :=
  s ← py_replace_Z timestamp_str;
  dt ← fromisoformat s;
  dt_timestamp dt.

(** [parse_timestamp]: [except (ValueError, AttributeError)] falls back
    to the current time; any other exception propagates. *)
Definition parse_timestamp (now : Q) (timestamp_str : pyobj) : result Q :=
  match parse_timestamp_try timestamp_str with
  | Ok t => Ok t
  | Raise ValueError => Ok now
  | Raise AttributeError => Ok now
  | Raise e => Raise e
  end.
End parse.

(** [round(x)] to the nearest integer, ties to even, as
    [datetime.fromtimestamp] rounds to microseconds. *)
Definition round_half_even (x : Q) : Z :=
  let n := Qnum x in
  let d := Z.pos (Qden x) in
  let fl := n / d in
  let r2 := 2 * (n - fl * d) in
  if r2 <? d then fl
  else if d <? r2 then fl + 1
  else if Z.even fl then fl else fl + 1.

(** Days since 1970-01-01 to the proleptic Gregorian (year, month, day). *)
Definition civil_from_days (days : Z) : Z * Z * Z :=
  let z := days + 719468 in
  let era := z / 146097 in
  let doe := z mod 146097 in
  let yoe := (doe - doe / 1460 + doe / 36524 - doe / 146096) / 365 in
  let doy := doe - (365 * yoe + yoe / 4 - yoe / 100) in
  let mp := (5 * doy + 2) / 153 in
  let d := doy - (153 * mp + 2) / 5 + 1 in
  let m := if mp <? 10 then mp + 3 else mp - 9 in
  let y := yoe + era * 400 + (if m <=? 2 then 1 else 0) in
  (y, m, d).

Record time_features : Type := mkTimeFeatures {
  hour_of_day : Z;
  day_of_week : Z;
  is_weekend : Z;
  is_business_hours : Z;
  month : Z;
  day_of_month : Z
}.

Section local_time.
(** Offset of the local zone from UTC, in seconds (a zone without
    transitions). *)
Variable utc_offset : Z.

(** [get_time_features]: [datetime.fromtimestamp] raises when the local
    year leaves 1..9999. *)
Definition get_time_features (timestamp : Q) : result time_features :=
  let us := round_half_even (timestamp * 1000000)%Q in
  let secs := us / 1000000 + utc_offset in
  let days := secs / 86400 in
  let '(y, m, d) := civil_from_days days in
  if (y <? 1) || (9999 <? y) then Raise ValueError
  else
    let hour := (secs mod 86400) / 3600 in
    let weekday := (days + 3) mod 7 in
    Ok {| hour_of_day := hour;
          day_of_week := weekday;
          is_weekend := if 5 <=? weekday then 1 else 0;
          is_business_hours :=
            if (9 <=? hour) && (hour <=? 17) then 1 else 0;
          month := m;
          day_of_month := d |}.
End local_time.

(** [is_within_window] *)
Definition is_within_window (now : Q) (timestamp : Q) (window_minutes : Z)
  : bool :=
  let current_time := now in
  let window_seconds := window_minutes * 60 in
  Qleb (current_time - timestamp) (inject_Z window_seconds).

End time_utils.

(** ** state_store.py *)
Module state_store.

(** [deque(maxlen=1000)] *)
Definition maxlen : nat := 1000.

Record UserState : Type := mkUserState {
  recent_events : list Event;
  feature_vector : gmap string pynum;
  last_updated : Q;
  created_at : Q
}.

(** [UserState()]: the default factories. *)
Definition UserState_new (now : Q) : UserState :=
  {| recent_events := [];
     feature_vector := ∅;
     last_updated := now;
     created_at := now |}.

(** [deque.append] on a bounded deque: the new item goes to the right
    end, and once the length exceeds [maxlen] one item is dropped from the
    left end. *)
Definition deque_append (d : list Event) (event : Event) : list Event :=
  let d' := d ++ [event] in
  if (maxlen <? length d')%nat then tail d' else d'.

Record StateStore : Type := mkStateStore {
  max_window_minutes : Z;
  cleanup_interval : Z;
  last_cleanup : Q;
  _store : gmap string UserState
}.

(** [StateStore.__init__] *)
Definition __init__ (now : Q) (max_window_minutes cleanup_interval : Z)
  : StateStore :=
  {| max_window_minutes := max_window_minutes;
     cleanup_interval := cleanup_interval;
     last_cleanup := now;
     _store := ∅ |}.

(** [StateStore()] with the default arguments. *)
Definition init_default (now : Q) : StateStore := __init__ now 60 300.

Definition with_store (self : StateStore) (m : gmap string UserState)
  : StateStore :=
  {| max_window_minutes := max_window_minutes self;
     cleanup_interval := cleanup_interval self;
     last_cleanup := last_cleanup self;
     _store := m |}.

(** [get_user_state]: get or create. *)
Definition get_user_state (now : Q) (self : StateStore) (user_id : string)
  : UserState * StateStore :=
  match _store self !! user_id with
  | Some state => (state, self)
  | None =>
      let state := UserState_new now in
      (state, with_store self (<[user_id := state]> (_store self)))
  end.

(** [update_user_events]: the state object is mutated in place, so the
    store sees the new deque and the new [last_updated]. *)
Definition update_user_events (now : Q) (self : StateStore)
    (user_id : string) (event : Event) : StateStore :=
  let '(state, self) := get_user_state now self user_id in
  let state' :=
    {| recent_events := deque_append (recent_events state) event;
       feature_vector := feature_vector state;
       last_updated := now;
       created_at := created_at state |} in
  with_store self (<[user_id := state']> (_store self)).

(** [update_user_features]: [dict.update] overwrites per key and keeps
    the other keys. *)
Definition update_user_features (now : Q) (self : StateStore)
    (user_id : string) (features : gmap string pynum) : StateStore :=
  let '(state, self) := get_user_state now self user_id in
  let state' :=
    {| recent_events := recent_events state;
       feature_vector := features ∪ feature_vector state;
       last_updated := now;
       created_at := created_at state |} in
  with_store self (<[user_id := state']> (_store self)).

(** [get_user_features]: a copy of the vector, and the store as
    [get_user_state] leaves it. *)
Definition get_user_features (now : Q) (self : StateStore)
    (user_id : string) : gmap string pynum * StateStore :=
  let '(state, self) := get_user_state now self user_id in
  (feature_vector state, self).

(** [window_minutes or self.max_window_minutes]: [None] and [0] are
    both falsy. *)
Definition window_or (window_minutes : option Z) (dflt : Z) : Z :=
  match window_minutes with
  | Some m => if m =? 0 then dflt else m
  | None => dflt
  end.

(** [get_recent_events] *)
Definition get_recent_events (now : Q) (self : StateStore)
    (user_id : string) (window_minutes : option Z) : list Event :=
  match _store self !! user_id with
  | None => []
  | Some state =>
      let window_minutes :=
        window_or window_minutes (max_window_minutes self) in
      let cutoff_time := (now - inject_Z (window_minutes * 60))%Q in
      List.filter (fun event => Qgtb (get_timestamp_unix event) cutoff_time)
                  (recent_events state)
  end.

(** [not state.recent_events] *)
Definition deque_is_empty (d : list Event) : bool :=
  match d with
  | [] => true
  | _ :: _ => false
  end.

(** The [while] loop of [clear_old_entries]: [popleft] as long as the
    leftmost event is older than the cutoff. *)
Fixpoint popleft_while (cutoff_time : Q) (d : list Event) : list Event :=
  match d with
  | [] => []
  | event :: d' =>
      if Qltb (get_timestamp_unix event) cutoff_time
      then popleft_while cutoff_time d'
      else d
  end.

(** The condition of the [if] in the sweep, read on the state as the
    loop finds it. *)
Definition to_remove (cutoff_time : Q) (state : UserState) : bool :=
  Qltb (last_updated state) cutoff_time
  && Qltb (created_at state) cutoff_time
  && deque_is_empty (recent_events state).

(** One iteration of the sweep on a state: the [else] branch trims. *)
Definition sweep_state (cutoff_time : Q) (state : UserState) : UserState :=
  if to_remove cutoff_time state then state
  else
    {| recent_events := popleft_while cutoff_time (recent_events state);
       feature_vector := feature_vector state;
       last_updated := last_updated state;
       created_at := created_at state |}.

(** [clear_old_entries]: first loop collects [users_to_remove] and trims
    the others in place, second loop deletes. *)
Definition clear_old_entries (now : Q) (self : StateStore)
  : nat * StateStore :=
  let current_time := now in
  let cutoff_time :=
    (current_time - inject_Z (max_window_minutes self * 60))%Q in
  let users_to_remove :=
    (filter (fun p => to_remove cutoff_time p.2 = true)
            (map_to_list (_store self))).*1 in
  let swept := sweep_state cutoff_time <$> _store self in
  let remaining := foldr delete swept users_to_remove in
  (length users_to_remove,
   {| max_window_minutes := max_window_minutes self;
      cleanup_interval := cleanup_interval self;
      last_cleanup := current_time;
      _store := remaining |}).

Record stats : Type := mkStats {
  total_users : nat;
  total_events : nat;
  stats_max_window_minutes : Z;
  stats_last_cleanup : Q
}.

(** [get_stats] *)
Definition get_stats (self : StateStore) : stats :=
  {| total_users := size (_store self);
     total_events :=
       map_fold (fun _ state acc => (length (recent_events state) + acc)%nat)
                0%nat (_store self);
     stats_max_window_minutes := max_window_minutes self;
     stats_last_cleanup := last_cleanup self |}.

(** [should_cleanup] *)
Definition should_cleanup (now : Q) (self : StateStore) : bool :=
  Qgtb (now - last_cleanup self)%Q (inject_Z (cleanup_interval self)).

End state_store.

(** ** The [statistics] module and the counting helpers *)
Module pystats.

Definition Qsum (l : list Q) : Q := foldr Qplus 0%Q l.

Definition Qlen {A} (l : list A) : Q := inject_Z (Z.of_nat (length l)).

(** [statistics.mean]: raises on empty data. *)
Definition mean (data : list Q) : result Q :=
  match data with
  | [] => Raise StatisticsError
  | _ => Ok (Qsum data / Qlen data)%Q
  end.

(** [statistics.variance]: the sample variance, computed exactly; at
    least two data points are required. *)
Definition variance (data : list Q) : result Q :=
  if (length data <? 2)%nat then Raise StatisticsError
  else
    let xbar := (Qsum data / Qlen data)%Q in
    let ss := Qsum (map (fun x => ((x - xbar) * (x - xbar))%Q) data) in
    Ok (ss / (Qlen data - 1))%Q.

Section stdev.
(** The floating-point square root. *)
Variable sqrt : Q -> Q.

(** [statistics.stdev] *)
Definition stdev (data : list Q) : result Q :=
  v ← variance data; Ok (sqrt v).
End stdev.

(** A frequency table built as [counts[k] += 1] over a list, on a
    [defaultdict(int)]. *)
Definition count_values `{Countable K} (l : list K) : gmap K Z :=
  foldl (fun counts k => <[k := default 0 (counts !! k) + 1]> counts) ∅ l.

(** [max(counts.values())]: raises on an empty table. *)
Definition max_values `{Countable K} (counts : gmap K Z) : result Z :=
  match (map_to_list counts).*2 with
  | [] => Raise ValueError
  | v :: vs => Ok (foldr Z.max v vs)
  end.

(** [l[-1]] *)
Definition last_item {A} (l : list A) : result A :=
  match last l with
  | Some a => Ok a
  | None => Raise IndexError
  end.

End pystats.

(** ** streaming_features.py *)
Module streaming_features.
Import time_utils state_store pystats.

(** The dict of defaults of [get_features], in source order. *)
Definition default_features : list (string * pynum) :=
  [ ("transaction_velocity_1h", PFloat 0);
    ("amount_zscore", PFloat 0);
    ("location_anomaly", PInt 0);
    ("time_pattern_score", PFloat 0);
    ("merchant_diversity", PFloat 0);
    ("payment_method_consistency", PFloat 1);
    ("amount_volatility", PFloat 0);
    ("location_consistency", PFloat 1) ].

(** The merge loop of [get_features]: a default is written only under a
    key that is absent. *)
Definition fill_defaults (features : gmap string pynum)
  : gmap string pynum :=
  foldl (fun features kv =>
           match features !! kv.1 with
           | Some _ => features
           | None => <[kv.1 := kv.2]> features
           end)
        features default_features.

(** [RealTimeFeatureEngine.get_features] *)
Definition get_features (now : Q) (state_store : StateStore)
    (user_id : string) : gmap string pynum * StateStore :=
  let '(features, state_store) :=
    get_user_features now state_store user_id in
  (fill_defaults features, state_store).

(** [abs(mean_amount) * 0.1 if mean_amount != 0 else 1.0], the
    substitute standard deviation written at three places of
    [_calculate_amount_features]. *)
Definition default_std (mean_amount : Q) : Q :=
  if negb (Qeq_bool mean_amount 0) then (Qabs mean_amount * (1 # 10))%Q
  else 1%Q.

Section engine.
Variable datetime : Type.
Variable fromisoformat : string -> result datetime.
Variable dt_timestamp : datetime -> result Q.
Variable utc_offset : Z.
Variable sqrt : Q -> Q.

(** Lines 133-143 of [_calculate_amount_features]: the standard
    deviation that the z-score and the volatility use. *)
Definition std_amount (historical_amounts : list Q) (mean_amount : Q)
  : result Q :=
  if (length historical_amounts =? 1)%nat then
    Ok (default_std mean_amount)
  else
    match stdev sqrt historical_amounts with
    | Ok std =>
        if Qeq_bool std 0 then Ok (default_std mean_amount) else Ok std
    | Raise StatisticsError => Ok (default_std mean_amount)
    | Raise e => Raise e
    end.

Definition amount_features (zscore volatility : pynum)
  : gmap string pynum :=
  <["amount_volatility" := volatility]>
    (<["amount_zscore" := zscore]> ∅).

(** [_calculate_amount_features] *)
Definition _calculate_amount_features (events : list Event)
  : result (gmap string pynum) :=
  let amounts := map (fun e => default 0%Q (amount e)) events in
  if (length amounts <? 2)%nat then
    Ok (amount_features (PFloat 0) (PFloat 0))
  else
    recent_amount ← last_item amounts;
    let historical_amounts := removelast amounts in
    match historical_amounts with
    | [] => Ok (amount_features (PFloat 0) (PFloat 0))
    | _ =>
        mean_amount ← mean historical_amounts;
        std ← std_amount historical_amounts mean_amount;
        zscore ← pydiv (recent_amount - mean_amount) std;
        volatility ←
          (if Qgtb mean_amount 0
           then q ← pydiv std mean_amount; Ok (PFloat q)
           else Ok (PInt 0));
        Ok (amount_features (PFloat zscore) volatility)
    end.

Definition location_features (anomaly consistency : pynum)
  : gmap string pynum :=
  <["location_consistency" := consistency]>
    (<["location_anomaly" := anomaly]> ∅).

(** [_calculate_location_features] *)
Definition _calculate_location_features (events : list Event)
  : result (gmap string pynum) :=
  let locations := omap (fun e => truthy_str (location e)) events in
  let recent_location :=
    match last events with
    | Some e => default "" (location e)
    | None => ""
    end in
  match locations with
  | [] => Ok (location_features (PInt 0) (PFloat 1))
  | _ =>
      let location_counts := count_values locations in
      let total_locations := Z.of_nat (length locations) in
      let recent_count := default 0 (location_counts !! recent_location) in
      ratio ← pydiv (inject_Z recent_count) (inject_Z total_locations);
      let anomaly :=
        if Qleb ratio (1 # 10) && (5 <? total_locations) then 1 else 0 in
      primary_location_count ←
        (if decide (location_counts = ∅) then Ok 0
         else max_values location_counts);
      consistency ←
        (if 0 <? total_locations
         then pydiv (inject_Z primary_location_count)
                    (inject_Z total_locations)
         else Ok 1%Q);
      Ok (location_features (PInt anomaly) (PFloat consistency))
  end.

Definition time_pattern (score : Q) : gmap string pynum :=
  <["time_pattern_score" := PFloat score]> ∅.

(** [_calculate_time_features]: the loop stops at the first timestamp
    that [get_time_features] rejects. *)
Definition _calculate_time_features (events : list Event)
  : result (gmap string pynum) :=
  match events with
  | [] => Ok (time_pattern 0)
  | _ =>
      let stamps :=
        List.filter (fun t => Qgtb t 0) (map get_timestamp_unix events) in
      tfs ← result_mapM (get_time_features utc_offset) stamps;
      let hours := map hour_of_day tfs in
      let weekdays := map day_of_week tfs in
      match hours with
      | [] => Ok (time_pattern 0)
      | _ =>
          recent_hour ← last_item hours;
          recent_weekday ←
            (match weekdays with
             | [] => Ok 0
             | _ => last_item weekdays
             end);
          let hour_counts :=
            if (1 <? length hours)%nat
            then count_values (removelast hours) else ∅ in
          let weekday_counts :=
            if (1 <? length hours)%nat
            then count_values (removelast weekdays) else ∅ in
          let total_historical := Z.of_nat (length hours) - 1 in
          if 0 <? total_historical then
            recent_hour_freq ←
              pydiv (inject_Z (default 0 (hour_counts !! recent_hour)))
                    (inject_Z total_historical);
            recent_weekday_freq ←
              pydiv (inject_Z (default 0 (weekday_counts !! recent_weekday)))
                    (inject_Z total_historical);
            Ok (time_pattern
                  (1 - (recent_hour_freq + recent_weekday_freq) / 2)%Q)
          else Ok (time_pattern 0)
      end
  end.

Definition behavioral_features (merchant_diversity payment_consistency : pynum)
  : gmap string pynum :=
  <["payment_method_consistency" := payment_consistency]>
    (<["merchant_diversity" := merchant_diversity]> ∅).

(** [_calculate_behavioral_features] *)
Definition _calculate_behavioral_features (events : list Event)
  : result (gmap string pynum) :=
  let merchants := omap (fun e => truthy_str (merchant e)) events in
  let payment_methods :=
    omap (fun e => truthy_str (payment_method e)) events in
  let unique_merchants :=
    match merchants with
    | [] => 0
    | _ => Z.of_nat (size (list_to_set merchants : gset string))
    end in
  let total_transactions := Z.of_nat (length events) in
  merchant_diversity ←
    (if 0 <? total_transactions
     then q ← pydiv (inject_Z unique_merchants)
                    (inject_Z total_transactions);
          Ok (PFloat q)
     else Ok (PInt 0));
  payment_consistency ←
    (match payment_methods with
     | [] => Ok 1%Q
     | _ =>
         let method_counts := count_values payment_methods in
         primary_method_count ← max_values method_counts;
         pydiv (inject_Z primary_method_count)
               (Qlen payment_methods)
     end);
  Ok (behavioral_features merchant_diversity (PFloat payment_consistency)).

(** [features.update(...)] guarded by the truth value of a slice. *)
Definition update_if_any (events : list Event)
    (calc : list Event -> result (gmap string pynum))
    (features : gmap string pynum) : result (gmap string pynum) :=
  match events with
  | [] => Ok features
  | _ => new ← calc events; Ok (new ∪ features)
  end.

(** [_calculate_features]; [clock k] is the reading of the clock by the
    [k]-th call of [time.time()] that [process_event] can reach, in
    program order. *)
Definition _calculate_features (clock : nat -> Q)
    (state_store : StateStore) (user_id : string)
  : result (gmap string pynum) :=
  let recent_events_1h :=
    get_recent_events (clock 2%nat) state_store user_id (Some 60) in
  let recent_events_24h :=
    get_recent_events (clock 3%nat) state_store user_id (Some 1440) in
  let recent_events_1w :=
    get_recent_events (clock 4%nat) state_store user_id (Some 10080) in
  let features : gmap string pynum :=
    <["transaction_velocity_1h" :=
        PInt (Z.of_nat (length recent_events_1h))]> ∅ in
  features ←
    update_if_any recent_events_24h _calculate_amount_features features;
  features ←
    update_if_any recent_events_1w _calculate_location_features features;
  features ←
    update_if_any recent_events_1w _calculate_time_features features;
  update_if_any recent_events_1w _calculate_behavioral_features features.

(** The first statement of [process_event]: derive [timestamp_unix]
    from [timestamp] on a copy when only the latter is present. *)
Definition ensure_timestamp_unix (now : Q) (event : Event)
  : result Event :=
  match timestamp_unix event, timestamp event with
  | None, Some ts =>
      t ← parse_timestamp datetime fromisoformat dt_timestamp now ts;
      Ok {| user_id := user_id event;
            transaction_id := transaction_id event;
            amount := amount event;
            timestamp := timestamp event;
            timestamp_unix := Some t;
            merchant := merchant event;
            location := location event;
            payment_method := payment_method event |}
  | _, _ => Ok event
  end.

(** [event['user_id']] *)
Definition event_user_id (event : Event) : result string :=
  match user_id event with
  | Some u => Ok u
  | None => Raise KeyError
  end.

(** [process_event]: the [try] body runs against the store, which
    keeps every mutation made before an exception; [except Exception]
    turns any exception into [False]. *)
Definition process_event (clock : nat -> Q) (state_store : StateStore)
    (event : Event) : bool * StateStore :=
  match ensure_timestamp_unix (clock 0%nat) event with
  | Raise _ => (false, state_store)
  | Ok event =>
      match event_user_id event with
      | Raise _ => (false, state_store)
      | Ok uid =>
          let state_store :=
            update_user_events (clock 1%nat) state_store uid event in
          match _calculate_features clock state_store uid with
          | Raise _ => (false, state_store)
          | Ok features =>
              let state_store :=
                update_user_features (clock 5%nat) state_store uid
                                     features in
              if should_cleanup (clock 6%nat) state_store then
                (true, (clear_old_entries (clock 7%nat) state_store).2)
              else (true, state_store)
          end
      end
  end.

End engine.

End streaming_features.

(** ** Runs of the store

    The public methods of [StateStore] as operations, each with the clock
    reading it is run at; a run is a list of them applied left to right. *)
Module store_run.
Import state_store.

Inductive store_op : Type :=
  | OpGetUserState (user_id : string)
  | OpUpdateUserEvents (user_id : string) (event : Event)
  | OpUpdateUserFeatures (user_id : string) (features : gmap string pynum)
  | OpGetUserFeatures (user_id : string)
  | OpGetRecentEvents (user_id : string) (window_minutes : option Z)
  | OpClearOldEntries
  | OpGetStats
  | OpShouldCleanup.

(** The store after one operation; the methods that only read return
    the store they were given. *)
Definition run_op (self : StateStore) (step : Q * store_op) : StateStore :=
  let '(now, op) := step in
  match op with
  | OpGetUserState u => (get_user_state now self u).2
  | OpUpdateUserEvents u e => update_user_events now self u e
  | OpUpdateUserFeatures u f => update_user_features now self u f
  | OpGetUserFeatures u => (get_user_features now self u).2
  | OpGetRecentEvents u w => self
  | OpClearOldEntries => (clear_old_entries now self).2
  | OpGetStats => self
  | OpShouldCleanup => self
  end.

Definition run_ops (self : StateStore) (steps : list (Q * store_op))
  : StateStore :=
  foldl run_op self steps.

(** The operations that go through [get_user_state] for [user_id]. *)
Definition reaches_get_user_state (op : store_op) (user_id : string)
  : Prop :=
  match op with
  | OpGetUserState u
  | OpUpdateUserEvents u _
  | OpUpdateUserFeatures u _
  | OpGetUserFeatures u => u = user_id
  | OpGetRecentEvents _ _ | OpClearOldEntries | OpGetStats
  | OpShouldCleanup => False
  end.

(** Every deque of the store is within [maxlen]. *)
Definition bounded (self : StateStore) : Prop :=
  map_Forall (fun _ state => (length (recent_events state) <= maxlen)%nat)
             (_store self).

(** The state that [get_user_state] hands out: the stored one, or a
    fresh one. *)
Definition state_or_new (now : Q) (self : StateStore) (u : string)
  : UserState :=
  default (UserState_new now) (_store self !! u).

(** The cutoff of a sweep run at [now]. *)
Definition reap_cutoff (now : Q) (self : StateStore) : Q :=
  (now - inject_Z (max_window_minutes self * 60))%Q.

End store_run.

(** ** The windowed read as the specification words it

    The events of a history whose epoch is strictly greater than
    [now - minutes * 60], in the order of the history. *)
Module windowed.

#[export] Instance Qlt_decision (x y : Q) : Decision (x < y)%Q.
Proof.
  destruct (Qlt_le_dec x y) as [H | H].
  - left. exact H.
  - right. intros H'. exact (Qle_not_lt _ _ H H').
Defined.

Definition timestampEpoch (e : Event) : Q := get_timestamp_unix e.

Definition windowed_spec (now : Q) (minutes : Z) (history : list Event)
  : list Event :=
  filter (fun e => (now - inject_Z (minutes * 60) < timestampEpoch e)%Q)
         history.

End windowed.

(** ** A small instance of the libraries, used to run the engine

    [iso_utc] accepts exactly the 25-character form
    [YYYY-MM-DDTHH:MM:SS+00:00]; [sqrt_approx] is the square root to six
    decimals. *)
Module instance.

Definition digit (c : ascii) : option Z :=
  let n := Z.of_nat (nat_of_ascii c) in
  if (48 <=? n) && (n <=? 57) then Some (n - 48) else None.

Fixpoint digits (acc : Z) (l : list ascii) : option Z :=
  match l with
  | [] => Some acc
  | c :: l' =>
      match digit c with
      | Some d => digits (10 * acc + d) l'
      | None => None
      end
  end.

Definition days_from_civil (y m d : Z) : Z :=
  let y' := if m <=? 2 then y - 1 else y in
  let era := y' / 400 in
  let yoe := y' - era * 400 in
  let doy := (153 * (if 2 <? m then m - 3 else m + 9) + 2) / 5 + d - 1 in
  let doe := yoe * 365 + yoe / 4 - yoe / 100 + doy in
  era * 146097 + doe - 719468.

Definition in_range (lo hi x : Z) : bool := (lo <=? x) && (x <=? hi).

(** The parsed instant, in seconds since the epoch. *)
Definition iso_utc_parse (s : string) : option Z :=
  match list_ascii_of_string s with
  | [y1; y2; y3; y4; "-"; m1; m2; "-"; d1; d2; "T";
     h1; h2; ":"; n1; n2; ":"; s1; s2; "+"; "0"; "0"; ":"; "0"; "0"]%char =>
      match digits 0 [y1; y2; y3; y4], digits 0 [m1; m2], digits 0 [d1; d2],
            digits 0 [h1; h2], digits 0 [n1; n2], digits 0 [s1; s2] with
      | Some y, Some m, Some d, Some h, Some n, Some sec =>
          if in_range 1 9999 y && in_range 1 12 m && in_range 1 31 d
             && in_range 0 23 h && in_range 0 59 n && in_range 0 59 sec
          then Some (days_from_civil y m d * 86400 + h * 3600 + n * 60 + sec)
          else None
      | _, _, _, _, _, _ => None
      end
  | _ => None
  end.

(** [datetime.fromisoformat] on that form: anything else is a
    [ValueError]. *)
Definition iso_utc (s : string) : result Z :=
  match iso_utc_parse s with
  | Some t => Ok t
  | None => Raise ValueError
  end.

Definition utc_timestamp (dt : Z) : result Q := Ok (inject_Z dt).

Definition sqrt_approx (q : Q) : Q :=
  (inject_Z (Z.sqrt (Qnum q * Z.pos (Qden q) * 1000000000000))
   / inject_Z (Z.pos (Qden q) * 1000000))%Q.

(** A clock that stands still during one call. *)
Definition frozen (now : Q) : nat -> Q := fun _ => now.

Definition sample_event (user : string) (a t : Q) : Event :=
  {| user_id := Some user;
     transaction_id := Some "txn";
     amount := Some a;
     timestamp := None;
     timestamp_unix := Some t;
     merchant := Some "shop";
     location := Some "home";
     payment_method := Some "card" |}.

(** An event that carries no [timestamp_unix] (and no [timestamp] to
    derive it from). *)
Definition undated_event (user : string) (a : Q) : Event :=
  {| user_id := Some user;
     transaction_id := Some "txn";
     amount := Some a;
     timestamp := None;
     timestamp_unix := None;
     merchant := None;
     location := None;
     payment_method := None |}.

(** A store holding one user whose only event is dated at the epoch,
    appended when the clock read 0. *)
Definition aged_store : state_store.StateStore :=
  state_store.update_user_events 0 (state_store.__init__ 0 60 300) "u"
    (sample_event "u" 10 0).

(** A store holding one user that was created without any event, when
    the clock read 0. *)
Definition idle_store : state_store.StateStore :=
  (state_store.get_user_state 0 (state_store.__init__ 0 60 300) "u").2.

(** A store holding one user with one event dated ten seconds before the
    append. *)
Definition recent_store : state_store.StateStore :=
  state_store.update_user_events 1700000000
    (state_store.__init__ 1700000000 60 300) "u"
    (sample_event "u" 10 1699999990).

(** A store holding one user with one undated event. *)
Definition undated_store : state_store.StateStore :=
  state_store.update_user_events 1700000000
    (state_store.__init__ 1700000000 60 300) "u" (undated_event "u" 10).

(** A store holding one user whose history is full. *)
Definition full_store : state_store.StateStore :=
  store_run.run_ops (state_store.__init__ 0 60 300)
    (repeat (0%Q, store_run.OpUpdateUserEvents "u" (sample_event "u" 10 0))
            1000).

(** An event as the API hands it over before any epoch is derived: only
    the ISO [timestamp] is present. *)
Definition iso_event (user : string) (a : Q) (ts : string) : Event :=
  {| user_id := Some user;
     transaction_id := Some "txn";
     amount := Some a;
     timestamp := Some (PyStr ts);
     timestamp_unix := None;
     merchant := Some "shop";
     location := Some "home";
     payment_method := Some "card" |}.

(** The same event once [process_event] has derived its epoch. *)
Definition dated_iso_event (user : string) (a : Q) (ts : string) (t : Q)
  : Event :=
  {| user_id := Some user;
     transaction_id := Some "txn";
     amount := Some a;
     timestamp := Some (PyStr ts);
     timestamp_unix := Some t;
     merchant := Some "shop";
     location := Some "home";
     payment_method := Some "card" |}.

End instance.

(** ** Runs of the engine

    A run is a list of calls of [process_event], each with the clock
    readings it sees, applied left to right to the engine's store. *)
Module engine_run.
Import state_store streaming_features.

Section run.
Variable datetime : Type.
Variable fromisoformat : string -> result datetime.
Variable dt_timestamp : datetime -> result Q.
Variable utc_offset : Z.
Variable sqrt : Q -> Q.

Definition run_events (state_store : StateStore)
    (calls : list ((nat -> Q) * Event)) : StateStore :=
  foldl (fun state_store call =>
           (process_event datetime fromisoformat dt_timestamp utc_offset sqrt
                          call.1 state_store call.2).2)
        state_store calls.
End run.

End engine_run.

(** ** validation_utils.py

    The functions of this file receive dicts whose values have any type,
    so they are embedded over dynamically typed values. Strings are
    sequences of code points below 256. *)
Module validation_utils.

(** A Python value as these functions can tell them apart. [VOther] is a
    value that is neither [None], a number, nor a string, and has no
    [replace] attribute (a list, a dict). *)
Inductive pyval : Type :=
  | VNone
  | VBool (b : bool)
  | VInt (z : Z)
  | VFloat (q : Q)
  | VStr (s : string)
  | VOther.

(** The argument of [validate_event]: a dict, or something else. *)
Inductive pyarg : Type :=
  | ADict (d : gmap string pyval)
  | ANotDict.

Definition REQUIRED_EVENT_FIELDS : list string :=
  ["user_id"; "transaction_id"; "amount"; "timestamp"].

Definition OPTIONAL_EVENT_FIELDS : list string :=
  ["merchant"; "location"; "payment_method"].

(** [isinstance(v, str)] *)
Definition is_str (v : pyval) : bool :=
  match v with
  | VStr _ => true
  | _ => false
  end.

(** [isinstance(v, (int, float))]; [bool] is a subclass of [int]. *)
Definition is_number (v : pyval) : bool :=
  match v with
  | VBool _ | VInt _ | VFloat _ => true
  | _ => false
  end.

(** The numeric value of a number, as comparisons and arithmetic see
    it. *)
Definition number_value (v : pyval) : option Q :=
  match v with
  | VBool b => Some (if b then 1 else 0)%Q
  | VInt z => Some (inject_Z z)
  | VFloat q => Some q
  | _ => None
  end.

(** [c.isspace()] for a code point below 256. *)
Definition is_space (c : ascii) : bool :=
  let n := N_of_ascii c in
  ((9 <=? n) && (n <=? 13) || (28 <=? n) && (n <=? 32)
   || (n =? 133) || (n =? 160))%N.

Fixpoint lstrip (l : list ascii) : list ascii :=
  match l with
  | [] => []
  | c :: l' => if is_space c then lstrip l' else l
  end.

(** [s.strip()] *)
Definition py_strip (s : string) : string :=
  string_of_list_ascii
    (rev (lstrip (rev (lstrip (list_ascii_of_string s))))).

(** [isinstance(v, str) and v.strip()] as a condition *)
Definition nonblank_str (v : pyval) : bool :=
  match v with
  | VStr s => negb (String.eqb (py_strip s) "")
  | _ => false
  end.

(** [isinstance(v, (int, float)) and not v < 0] *)
Definition nonnegative_number (v : pyval) : bool :=
  match number_value v with
  | Some q => negb (Qltb q 0)
  | None => false
  end.

(** The first required field that is missing, if any. *)
Fixpoint first_missing (fields : list string) (event : gmap string pyval)
  : option string :=
  match fields with
  | [] => None
  | field :: fields' =>
      match event !! field with
      | None => Some field
      | Some _ => first_missing fields' event
      end
  end.

(** ['key' in event and not isinstance(event['key'], str)] *)
Definition present_not_str (event : gmap string pyval) (key : string)
  : bool :=
  match event !! key with
  | Some v => negb (is_str v)
  | None => false
  end.

(** [event[key]] used as a condition through [check], after the key is
    known to be present. *)
Definition field_is (check : pyval -> bool) (event : gmap string pyval)
    (key : string) : bool :=
  match event !! key with
  | Some v => check v
  | None => false
  end.

(** [validate_event] *)
Definition validate_event (event : pyarg) : bool * option string :=
  match event with
  | ANotDict => (false, Some "Event must be a dictionary")
  | ADict event =>
      match first_missing REQUIRED_EVENT_FIELDS event with
      | Some field => (false, Some ("Missing required field: " +:+ field))
      | None =>
          if negb (field_is nonblank_str event "user_id") then
            (false, Some "user_id must be a non-empty string")
          else if negb (field_is nonblank_str event "transaction_id") then
            (false, Some "transaction_id must be a non-empty string")
          else if negb (field_is nonnegative_number event "amount") then
            (false, Some "amount must be a non-negative number")
          else if negb (field_is is_str event "timestamp") then
            (false, Some "timestamp must be a string")
          else if present_not_str event "merchant" then
            (false, Some "merchant must be a string")
          else if present_not_str event "location" then
            (false, Some "location must be a string")
          else if present_not_str event "payment_method" then
            (false, Some "payment_method must be a string")
          else (true, None)
      end
  end.

(** The value copied by [sanitize_event]: strings are stripped. *)
Definition sanitize_value (v : pyval) : pyval :=
  match v with
  | VStr s => VStr (py_strip s)
  | _ => v
  end.

(** The copy loop of [sanitize_event]. *)
Definition copy_fields (fields : list string) (event : gmap string pyval)
  : gmap string pyval :=
  foldl (fun sanitized field =>
           match event !! field with
           | Some value => <[field := sanitize_value value]> sanitized
           | None => sanitized
           end)
        ∅ fields.

(** The argument [parse_timestamp] sees for a dict value. *)
Definition timestamp_arg (v : pyval) : pyobj :=
  match v with
  | VStr s => PyStr s
  | _ => PyNoReplace
  end.

Section sanitize.
Variable datetime : Type.
Variable fromisoformat : string -> result datetime.
Variable dt_timestamp : datetime -> result Q.

(** [sanitize_event] *)
Definition sanitize_event (now : Q) (event : gmap string pyval)
  : result (gmap string pyval) :=
  let sanitized :=
    copy_fields (REQUIRED_EVENT_FIELDS ++ OPTIONAL_EVENT_FIELDS) event in
  match sanitized !! "timestamp" with
  | Some ts =>
      t ← time_utils.parse_timestamp datetime fromisoformat dt_timestamp now
            (timestamp_arg ts);
      Ok (<["timestamp_unix" := VFloat t]> sanitized)
  | None => Ok sanitized
  end.
End sanitize.

(** [isinstance(features[feature], (int, float))] on each of the four
    required features, in order. *)
Definition required_features : list string :=
  ["transaction_velocity_1h"; "amount_zscore"; "location_anomaly";
   "time_pattern_score"].

(** [validate_feature_vector] *)
Fixpoint validate_features_from (required : list string)
    (features : gmap string pyval) : bool * option string :=
  match required with
  | [] => (true, None)
  | feature :: required' =>
      match features !! feature with
      | None => (false, Some ("Missing required feature: " +:+ feature))
      | Some v =>
          if negb (is_number v)
          then (false, Some ("Feature " +:+ feature +:+ " must be numeric"))
          else validate_features_from required' features
      end
  end.

Definition validate_feature_vector (features : gmap string pyval)
  : bool * option string :=
  validate_features_from required_features features.

(** The engine's feature values as Python values. *)
Definition pyval_of_pynum (v : pynum) : pyval :=
  match v with
  | PInt z => VInt z
  | PFloat q => VFloat q
  end.

(** The dict as the embedding of the engine reads it: each key the
    engine looks up, with the type the engine's code needs. [None] when
    a present value has a type the typed [Event] cannot hold. *)
Definition as_opt_str (o : option pyval) : option (option string) :=
  match o with
  | None => Some None
  | Some (VStr s) => Some (Some s)
  | Some _ => None
  end.

Definition as_opt_number (o : option pyval) : option (option Q) :=
  match o with
  | None => Some None
  | Some v => match number_value v with
              | Some q => Some (Some q)
              | None => None
              end
  end.

Definition engine_view (d : gmap string pyval) : option Event :=
  uid ← as_opt_str (d !! "user_id");
  tid ← as_opt_str (d !! "transaction_id");
  amt ← as_opt_number (d !! "amount");
  unix ← as_opt_number (d !! "timestamp_unix");
  mer ← as_opt_str (d !! "merchant");
  loc ← as_opt_str (d !! "location");
  pay ← as_opt_str (d !! "payment_method");
  Some {| user_id := uid;
          transaction_id := tid;
          amount := amt;
          timestamp := timestamp_arg <$> d !! "timestamp";
          timestamp_unix := unix;
          merchant := mer;
          location := loc;
          payment_method := pay |}.

End validation_utils.

(** ** api.py: the request model *)
Module api.
Import validation_utils.

(** [TransactionEvent]: the pydantic model of a request. *)
Record TransactionEvent : Type := mkTransactionEvent {
  te_user_id : string;
  te_transaction_id : string;
  te_amount : Q;
  te_timestamp : string;
  te_merchant : option string;
  te_location : option string;
  te_payment_method : option string
}.

Definition opt_field (o : option string) : pyval :=
  match o with
  | Some s => VStr s
  | None => VNone
  end.

(** [event.dict()]: every field of the model is a key; an optional field
    that was not sent has the value [None]. *)
Definition event_dict (event : TransactionEvent) : gmap string pyval :=
  <["user_id" := VStr (te_user_id event)]>
    (<["transaction_id" := VStr (te_transaction_id event)]>
       (<["amount" := VFloat (te_amount event)]>
          (<["timestamp" := VStr (te_timestamp event)]>
             (<["merchant" := opt_field (te_merchant event)]>
                (<["location" := opt_field (te_location event)]>
                   (<["payment_method" :=
                        opt_field (te_payment_method event)]> ∅)))))).

End api.

(** ** The lists the calculators build from a slice

    The comprehensions at the head of each calculator, named so that the
    properties can speak of them. *)
Module slice_terms.

(** [[e.get('amount', 0) for e in events]] *)
Definition amounts_of (events : list Event) : list Q :=
  map (fun e => default 0%Q (amount e)) events.

(** [[e.get('location', '') for e in events if e.get('location')]] *)
Definition located (events : list Event) : list string :=
  omap (fun e => truthy_str (location e)) events.

(** [events[-1].get('location', '') if events else ''] *)
Definition latest_location (events : list Event) : string :=
  match last events with
  | Some e => default "" (location e)
  | None => ""
  end.

(** [[e.get('merchant', '') for e in events if e.get('merchant')]] *)
Definition merchants_of (events : list Event) : list string :=
  omap (fun e => truthy_str (merchant e)) events.

(** [[e.get('payment_method', '') for e in events if
    e.get('payment_method')]] *)
Definition payment_methods_of (events : list Event) : list string :=
  omap (fun e => truthy_str (payment_method e)) events.

(** The epochs that the loop of [_calculate_time_features] converts:
    those greater than 0, in slice order. *)
Definition positive_stamps (events : list Event) : list Q :=
  List.filter (fun t => Qgtb t 0) (map get_timestamp_unix events).

(** Number of occurrences of [x] in [l]. *)
Definition occurrences {A} `{EqDecision A} (x : A) (l : list A) : Z :=
  Z.of_nat (length (filter (fun y => y = x) l)).

End slice_terms.

(** * Properties *)

(** ** Comparisons *)

Lemma Qltb_lt (x y : Q) : Qltb x y = true <-> (x < y)%Q.
Proof.
  unfold Qltb. rewrite negb_true_iff. split.
  - intros H. apply Qnot_le_lt. intros Hle.
    apply Qle_bool_iff in Hle. congruence.
  - intros H. destruct (Qle_bool y x) eqn:E; [|reflexivity].
    apply Qle_bool_iff in E. exfalso. exact (Qlt_not_le _ _ H E).
Qed.

Lemma Qltb_ge (x y : Q) : Qltb x y = false <-> (y <= x)%Q.
Proof.
  unfold Qltb. rewrite negb_false_iff. apply Qle_bool_iff.
Qed.

Lemma Qgtb_gt (x y : Q) : Qgtb x y = true <-> (y < x)%Q.
Proof. unfold Qgtb. apply Qltb_lt. Qed.

Lemma Qgtb_le (x y : Q) : Qgtb x y = false <-> (x <= y)%Q.
Proof. unfold Qgtb. apply Qltb_ge. Qed.

(** ** The store: lookups after each method *)
Section store_lemmas.
Import state_store store_run.

Implicit Types (self : StateStore) (state : UserState) (u v : string).

Lemma get_user_state_store now self u :
  _store (get_user_state now self u).2 =
  match _store self !! u with
  | Some _ => _store self
  | None => <[u := UserState_new now]> (_store self)
  end.
Proof. unfold get_user_state. destruct (_store self !! u); reflexivity. Qed.

Lemma get_user_state_lookup now self u :
  _store (get_user_state now self u).2 !! u =
  Some (get_user_state now self u).1.
Proof.
  unfold get_user_state. destruct (_store self !! u) eqn:E; simpl.
  - exact E.
  - apply lookup_insert_eq.
Qed.

Lemma get_user_state_other now self u v :
  u <> v ->
  _store (get_user_state now self u).2 !! v = _store self !! v.
Proof.
  intros Hne. rewrite get_user_state_store.
  destruct (_store self !! u); [reflexivity|].
  by rewrite lookup_insert_ne.
Qed.

Lemma get_user_state_known now self u state :
  _store self !! u = Some state ->
  get_user_state now self u = (state, self).
Proof. intros H. unfold get_user_state. by rewrite H. Qed.

Lemma get_user_state_unknown now self u :
  _store self !! u = None ->
  get_user_state now self u =
  (UserState_new now,
   with_store self (<[u := UserState_new now]> (_store self))).
Proof. intros H. unfold get_user_state. by rewrite H. Qed.

Lemma get_user_state_fst now self u :
  (get_user_state now self u).1 = state_or_new now self u.
Proof.
  unfold get_user_state, state_or_new.
  destruct (_store self !! u); reflexivity.
Qed.

Lemma update_user_events_lookup now self u e :
  _store (update_user_events now self u e) !! u =
  Some {| recent_events :=
            deque_append (recent_events (state_or_new now self u)) e;
          feature_vector := feature_vector (state_or_new now self u);
          last_updated := now;
          created_at := created_at (state_or_new now self u) |}.
Proof.
  unfold update_user_events.
  rewrite <- (get_user_state_fst now self u).
  destruct (get_user_state now self u) as [state self']. simpl.
  apply lookup_insert_eq.
Qed.

Lemma update_user_events_other now self u v e :
  u <> v ->
  _store (update_user_events now self u e) !! v = _store self !! v.
Proof.
  intros Hne. unfold update_user_events.
  pose proof (get_user_state_other now self u v Hne) as H.
  destruct (get_user_state now self u) as [state self']. simpl in *.
  by rewrite lookup_insert_ne.
Qed.

Lemma update_user_features_lookup now self u f :
  _store (update_user_features now self u f) !! u =
  Some {| recent_events := recent_events (state_or_new now self u);
          feature_vector := f ∪ feature_vector (state_or_new now self u);
          last_updated := now;
          created_at := created_at (state_or_new now self u) |}.
Proof.
  unfold update_user_features.
  rewrite <- (get_user_state_fst now self u).
  destruct (get_user_state now self u) as [state self']. simpl.
  apply lookup_insert_eq.
Qed.

Lemma update_user_features_other now self u v f :
  u <> v ->
  _store (update_user_features now self u f) !! v = _store self !! v.
Proof.
  intros Hne. unfold update_user_features.
  pose proof (get_user_state_other now self u v Hne) as H.
  destruct (get_user_state now self u) as [state self']. simpl in *.
  by rewrite lookup_insert_ne.
Qed.

Lemma get_user_features_snd now self u :
  (get_user_features now self u).2 = (get_user_state now self u).2.
Proof.
  unfold get_user_features.
  destruct (get_user_state now self u); reflexivity.
Qed.

Lemma get_user_features_fst now self u :
  (get_user_features now self u).1 =
  feature_vector (state_or_new now self u).
Proof.
  unfold get_user_features. rewrite <- get_user_state_fst.
  destruct (get_user_state now self u); reflexivity.
Qed.

Lemma users_to_remove_elem cutoff (m : gmap string UserState) u :
  u ∈ (filter (fun p => to_remove cutoff p.2 = true) (map_to_list m)).*1
  <-> exists state, m !! u = Some state /\ to_remove cutoff state = true.
Proof.
  rewrite list_elem_of_fmap. split.
  - intros [[u' state] [-> [Hrm Hin]%list_elem_of_filter]].
    apply elem_of_map_to_list in Hin. eauto.
  - intros [state [Hl Hrm]]. exists (u, state). split; [reflexivity|].
    apply list_elem_of_filter. split; [exact Hrm|].
    by apply elem_of_map_to_list.
Qed.

(** What the two loops of [clear_old_entries] leave under each key. *)
Lemma clear_old_entries_lookup now self u :
  _store (clear_old_entries now self).2 !! u =
  match _store self !! u with
  | Some state =>
      if to_remove (reap_cutoff now self) state then None
      else Some (sweep_state (reap_cutoff now self) state)
  | None => None
  end.
Proof.
  unfold clear_old_entries, reap_cutoff. simpl.
  set (cutoff := (now - inject_Z (max_window_minutes self * 60))%Q).
  set (users := (filter _ _).*1).
  destruct (_store self !! u) as [state|] eqn:E.
  - destruct (to_remove cutoff state) eqn:R.
    + apply lookup_foldr_delete.
      apply users_to_remove_elem. eauto.
    + rewrite lookup_foldr_delete_not_elem_of.
      * by rewrite lookup_fmap, E.
      * intros [state' [Hl Hrm]]%users_to_remove_elem. congruence.
  - rewrite lookup_foldr_delete_not_elem_of.
    + by rewrite lookup_fmap, E.
    + intros [state' [Hl Hrm]]%users_to_remove_elem. congruence.
Qed.

Lemma to_remove_true cutoff state :
  to_remove cutoff state = true <->
  (last_updated state < cutoff)%Q /\ (created_at state < cutoff)%Q
  /\ recent_events state = [].
Proof.
  unfold to_remove. rewrite !andb_true_iff, !Qltb_lt.
  destruct (recent_events state); simpl; intuition congruence.
Qed.

Lemma popleft_while_suffix cutoff (d : list Event) :
  popleft_while cutoff d `suffix_of` d.
Proof.
  induction d as [|e d IH]; simpl; [done|].
  destruct (Qltb _ _); [|done]. by apply suffix_cons_r.
Qed.

Lemma popleft_while_length cutoff (d : list Event) :
  (length (popleft_while cutoff d) <= length d)%nat.
Proof. apply suffix_length, popleft_while_suffix. Qed.

Lemma popleft_while_app cutoff (pre post : list Event) :
  Forall (fun e => (get_timestamp_unix e < cutoff)%Q) pre ->
  popleft_while cutoff (pre ++ post) = popleft_while cutoff post.
Proof.
  induction 1 as [|e pre He _ IH]; simpl; [done|].
  apply Qltb_lt in He. by rewrite He.
Qed.

End store_lemmas.

(** ** Reaping *)
Section reap.
Import state_store store_run instance.

(** C1, as the claim states it, fails: the user of [aged_store] has both
    timestamps before the cutoff of a sweep at 10000 and a history that
    the trimming empties, yet the sweep keeps the user (with an empty
    history) and reports no removal. *)
Lemma reap_keeps_entity_emptied_by_trimming :
  exists state,
    _store aged_store !! "u" = Some state
    /\ (last_updated state < reap_cutoff 10000 aged_store)%Q
    /\ (created_at state < reap_cutoff 10000 aged_store)%Q
    /\ popleft_while (reap_cutoff 10000 aged_store) (recent_events state)
       = []
    /\ _store (clear_old_entries 10000 aged_store).2 !! "u"
       = Some {| recent_events := [];
                 feature_vector := ∅;
                 last_updated := 0;
                 created_at := 0 |}
    /\ (clear_old_entries 10000 aged_store).1 = 0%nat.
Proof.
  eexists. split; [reflexivity|].
  repeat split; reflexivity.
Qed.

(** C1 (amended): a sweep decides on the history as it finds it, before
    trimming. An entity is deleted exactly when [last_updated] and
    [created_at] both precede the cutoff and its history is already
    empty; every entity with a non-empty history is retained, holding
    the history trimmed from the front, and so is in particular every
    entity with an entry left after trimming. *)
Theorem reap_deletes_iff_stale_and_already_empty now self u state :
  _store self !! u = Some state ->
  (_store (clear_old_entries now self).2 !! u = None <->
     (last_updated state < reap_cutoff now self)%Q
     /\ (created_at state < reap_cutoff now self)%Q
     /\ recent_events state = [])
  /\ (recent_events state <> [] ->
      _store (clear_old_entries now self).2 !! u =
      Some {| recent_events :=
                popleft_while (reap_cutoff now self) (recent_events state);
              feature_vector := feature_vector state;
              last_updated := last_updated state;
              created_at := created_at state |})
  /\ (popleft_while (reap_cutoff now self) (recent_events state) <> [] ->
      is_Some (_store (clear_old_entries now self).2 !! u)).
Proof.
  intros Hl. rewrite clear_old_entries_lookup, Hl.
  assert (Hne : recent_events state <> [] ->
                to_remove (reap_cutoff now self) state = false).
  { intros Hne. destruct (to_remove _ state) eqn:R; [|reflexivity].
    apply to_remove_true in R. tauto. }
  split; [|split].
  - destruct (to_remove _ state) eqn:R.
    + apply to_remove_true in R. tauto.
    + split; [discriminate|]. intros H. apply to_remove_true in H.
      congruence.
  - intros H. rewrite (Hne H). unfold sweep_state. by rewrite (Hne H).
  - intros H. rewrite Hne; [eauto|].
    intros E. rewrite E in H. by apply H.
Qed.

Lemma reap_deletes_iff_stale_and_already_empty_witness :
  (_store (clear_old_entries 10000 idle_store).2 !! "u" = None <->
     (0 < reap_cutoff 10000 idle_store)%Q
     /\ (0 < reap_cutoff 10000 idle_store)%Q
     /\ @nil Event = [])
  /\ (@nil Event <> [] ->
      _store (clear_old_entries 10000 idle_store).2 !! "u" =
      Some {| recent_events :=
                popleft_while (reap_cutoff 10000 idle_store) [];
              feature_vector := ∅;
              last_updated := 0;
              created_at := 0 |})
  /\ (popleft_while (reap_cutoff 10000 idle_store) [] <> [] ->
      is_Some (_store (clear_old_entries 10000 idle_store).2 !! "u")).
Proof.
  apply (reap_deletes_iff_stale_and_already_empty 10000 idle_store "u"
           (UserState_new 0)).
  reflexivity.
Defined.

End reap.

(** ** Creation of entity state *)
Section creation.
Import state_store store_run streaming_features instance.

Lemma get_features_store now self u :
  (get_features now self u).2 = (get_user_state now self u).2.
Proof.
  unfold get_features. rewrite <- get_user_features_snd.
  destruct (get_user_features now self u); reflexivity.
Qed.

(** C3, as the claim states it, fails: reading the features of an id the
    store has never seen creates a state for it, both through the store
    method and through the engine, and the store then counts the id. *)
Lemma feature_read_creates_state :
  _store (init_default 0) !! "ghost" = None
  /\ _store (get_user_features 5 (init_default 0) "ghost").2 !! "ghost"
     = Some (UserState_new 5)
  /\ _store (get_features 5 (init_default 0) "ghost").2 !! "ghost"
     = Some (UserState_new 5)
  /\ total_users (get_stats (init_default 0)) = 0%nat
  /\ total_users (get_stats (get_features 5 (init_default 0) "ghost").2)
     = 1%nat.
Proof. repeat split; reflexivity. Qed.

(** C3 (amended): state for an unknown id is created by [get_user_state]
    and by nothing else, so by exactly the operations that go through it
    for that id: the first append, a feature update and a feature read
    (the store's and the engine's). Windowed reads, statistics, the
    cleanup test and the sweep do not create state; a windowed read of
    an unknown id is empty, and the first append leaves a state holding
    that one event. *)
Theorem state_created_exactly_through_get_user_state now self op u :
  _store self !! u = None ->
  (is_Some (_store (run_op self (now, op)) !! u)
     <-> reaches_get_user_state op u)
  /\ (forall e,
        _store (update_user_events now self u e) !! u =
        Some {| recent_events := [e];
                feature_vector := ∅;
                last_updated := now;
                created_at := now |})
  /\ _store (get_features now self u).2 !! u = Some (UserState_new now)
  /\ (forall w, get_recent_events now self u w = []).
Proof.
  intros Hnone. split; [|split; [|split]].
  - destruct op as [v|v e|v f|v|v w| | |];
      cbv beta iota delta [run_op reaches_get_user_state].
    + destruct (decide (v = u)) as [->|Hne].
      * rewrite get_user_state_lookup. split; eauto.
      * rewrite get_user_state_other, Hnone by done.
        split; [intros []; discriminate|done].
    + destruct (decide (v = u)) as [->|Hne].
      * rewrite update_user_events_lookup. split; eauto.
      * rewrite update_user_events_other, Hnone by done.
        split; [intros []; discriminate|done].
    + destruct (decide (v = u)) as [->|Hne].
      * rewrite update_user_features_lookup. split; eauto.
      * rewrite update_user_features_other, Hnone by done.
        split; [intros []; discriminate|done].
    + rewrite get_user_features_snd.
      destruct (decide (v = u)) as [->|Hne].
      * rewrite get_user_state_lookup. split; eauto.
      * rewrite get_user_state_other, Hnone by done.
        split; [intros []; discriminate|done].
    + rewrite Hnone. split; [intros []; discriminate|done].
    + rewrite clear_old_entries_lookup, Hnone.
      split; [intros []; discriminate|done].
    + rewrite Hnone. split; [intros []; discriminate|done].
    + rewrite Hnone. split; [intros []; discriminate|done].
  - intros e. rewrite update_user_events_lookup.
    unfold state_or_new. rewrite Hnone. reflexivity.
  - rewrite get_features_store, get_user_state_lookup.
    by rewrite get_user_state_unknown.
  - intros w. unfold get_recent_events. by rewrite Hnone.
Qed.

Lemma state_created_exactly_through_get_user_state_witness :
  (is_Some (_store (run_op (init_default 0)
                           (5%Q, OpGetUserFeatures "ghost")) !! "ghost")
     <-> reaches_get_user_state (OpGetUserFeatures "ghost") "ghost")
  /\ (forall e,
        _store (update_user_events 5 (init_default 0) "ghost" e) !! "ghost"
        = Some {| recent_events := [e];
                  feature_vector := ∅;
                  last_updated := 5;
                  created_at := 5 |})
  /\ _store (get_features 5 (init_default 0) "ghost").2 !! "ghost"
     = Some (UserState_new 5)
  /\ (forall w, get_recent_events 5 (init_default 0) "ghost" w = []).
Proof.
  apply (state_created_exactly_through_get_user_state
           5 (init_default 0) (OpGetUserFeatures "ghost") "ghost").
  reflexivity.
Defined.

End creation.

(** ** The capacity of a history *)
Section capacity.
Import state_store store_run instance.

Lemma tail_length {A} (l : list A) : length (tail l) = pred (length l).
Proof. destruct l; reflexivity. Qed.

Lemma deque_append_length (d : list Event) e :
  (length d <= maxlen)%nat -> (length (deque_append d e) <= maxlen)%nat.
Proof.
  intros H. unfold deque_append.
  destruct (Nat.ltb_spec maxlen (length (d ++ [e]))) as [Hlt|Hle].
  - rewrite tail_length, length_app. simpl. lia.
  - exact Hle.
Qed.

Lemma deque_append_room (d : list Event) e :
  (length d < maxlen)%nat -> deque_append d e = d ++ [e].
Proof.
  intros H. unfold deque_append.
  destruct (Nat.ltb_spec maxlen (length (d ++ [e]))) as [Hlt|Hle];
    [|reflexivity].
  rewrite length_app in Hlt. simpl in Hlt. lia.
Qed.

Lemma deque_append_full (d : list Event) e :
  length d = maxlen -> deque_append d e = tail d ++ [e].
Proof.
  intros H. unfold deque_append.
  destruct (Nat.ltb_spec maxlen (length (d ++ [e]))) as [Hlt|Hle].
  - destruct d as [|x d]; [discriminate H|reflexivity].
  - rewrite length_app in Hle. simpl in Hle. lia.
Qed.

Lemma bounded_init now mw ci : bounded (__init__ now mw ci).
Proof. unfold bounded, __init__. simpl. apply map_Forall_empty. Qed.

Lemma state_or_new_bounded now self u :
  bounded self ->
  (length (recent_events (state_or_new now self u)) <= maxlen)%nat.
Proof.
  intros Hb. unfold state_or_new.
  destruct (_store self !! u) as [state|] eqn:E; simpl.
  - exact (Hb u state E).
  - unfold maxlen. lia.
Qed.

Lemma bounded_get_user_state now self u :
  bounded self -> bounded (get_user_state now self u).2.
Proof.
  intros Hb v state. destruct (decide (u = v)) as [<-|Hne].
  - rewrite get_user_state_lookup, get_user_state_fst.
    intros [= <-]. by apply state_or_new_bounded.
  - rewrite get_user_state_other by done. apply Hb.
Qed.

Lemma bounded_update_user_events now self u e :
  bounded self -> bounded (update_user_events now self u e).
Proof.
  intros Hb v state. destruct (decide (u = v)) as [<-|Hne].
  - rewrite update_user_events_lookup. intros [= <-]. simpl.
    by apply deque_append_length, state_or_new_bounded.
  - rewrite update_user_events_other by done. apply Hb.
Qed.

Lemma bounded_update_user_features now self u f :
  bounded self -> bounded (update_user_features now self u f).
Proof.
  intros Hb v state. destruct (decide (u = v)) as [<-|Hne].
  - rewrite update_user_features_lookup. intros [= <-]. simpl.
    by apply state_or_new_bounded.
  - rewrite update_user_features_other by done. apply Hb.
Qed.

Lemma bounded_clear_old_entries now self :
  bounded self -> bounded (clear_old_entries now self).2.
Proof.
  intros Hb v state. rewrite clear_old_entries_lookup.
  destruct (_store self !! v) as [old|] eqn:E; [|discriminate].
  destruct (to_remove _ old) eqn:R; [discriminate|].
  intros [= <-]. unfold sweep_state. rewrite R. simpl.
  etrans; [apply popleft_while_length|]. exact (Hb v old E).
Qed.

Lemma bounded_run_op self step : bounded self -> bounded (run_op self step).
Proof.
  intros Hb. destruct step as [now op].
  destruct op; cbv beta iota delta [run_op]; try assumption.
  - by apply bounded_get_user_state.
  - by apply bounded_update_user_events.
  - by apply bounded_update_user_features.
  - rewrite get_user_features_snd. by apply bounded_get_user_state.
  - by apply bounded_clear_old_entries.
Qed.

Lemma bounded_run_ops steps self :
  bounded self -> bounded (run_ops self steps).
Proof.
  revert self. induction steps as [|step steps IH]; intros self Hb.
  - exact Hb.
  - simpl. apply IH. by apply bounded_run_op.
Qed.

Lemma get_recent_events_length now self u w :
  bounded self ->
  (length (get_recent_events now self u w) <= maxlen)%nat.
Proof.
  intros Hb. unfold get_recent_events.
  destruct (_store self !! u) as [state|] eqn:E; simpl.
  - etrans; [apply List.filter_length_le|]. exact (Hb u state E).
  - unfold maxlen. lia.
Qed.

(** C6: in every store reached from a new one by any run of store
    operations (appends included), each history holds at most 1000
    events and a windowed read returns at most 1000 events for any
    window; an append to a history of exactly 1000 events drops its
    first (oldest) event, whatever the timestamps, and puts the new
    event last. *)
Theorem history_never_exceeds_capacity now0 mw ci steps :
  let self := run_ops (__init__ now0 mw ci) steps in
  (forall u state,
     _store self !! u = Some state ->
     (length (recent_events state) <= 1000)%nat)
  /\ (forall now u w,
        (length (get_recent_events now self u w) <= 1000)%nat)
  /\ (forall now u state e,
        _store self !! u = Some state ->
        length (recent_events state) = 1000%nat ->
        exists state',
          _store (update_user_events now self u e) !! u = Some state'
          /\ recent_events state' = tail (recent_events state) ++ [e]
          /\ length (recent_events state') = 1000%nat).
Proof.
  intros self.
  assert (Hb : bounded self) by apply bounded_run_ops, bounded_init.
  split; [|split].
  - exact Hb.
  - intros now u w. by apply get_recent_events_length.
  - intros now u state e Hl Hlen.
    eexists. split; [apply update_user_events_lookup|].
    unfold state_or_new. rewrite Hl. simpl.
    rewrite deque_append_full by exact Hlen.
    split; [reflexivity|].
    rewrite length_app, tail_length, Hlen. reflexivity.
Qed.

Lemma history_never_exceeds_capacity_witness :
  exists state',
    _store (update_user_events 1 full_store "u" (sample_event "u" 20 1))
      !! "u" = Some state'
    /\ recent_events state' =
       tail (repeat (sample_event "u" 10 0) 1000)
         ++ [sample_event "u" 20 1]
    /\ length (recent_events state') = 1000%nat.
Proof.
  apply (proj2 (proj2 (history_never_exceeds_capacity 0 60 300
                         (repeat (0%Q, OpUpdateUserEvents "u"
                                         (sample_event "u" 10 0)) 1000)))
           1%Q "u"
           {| recent_events := repeat (sample_event "u" 10 0) 1000;
              feature_vector := ∅;
              last_updated := 0;
              created_at := 0 |}
           (sample_event "u" 20 1)).
  - reflexivity.
  - reflexivity.
Defined.

End capacity.

(** ** Windowed reads *)
Section windowed_read.
Import state_store store_run windowed instance.

Lemma filter_bool_prop {A} (f : A -> bool) (P : A -> Prop)
    `{!forall x, Decision (P x)} (l : list A) :
  (forall x, f x = true <-> P x) -> List.filter f l = filter P l.
Proof.
  intros Hf. induction l as [|x l IH]; [reflexivity|].
  simpl. rewrite filter_cons.
  destruct (f x) eqn:E; destruct (decide (P x)) as [HP|HP].
  - by rewrite IH.
  - apply Hf in E. contradiction.
  - apply Hf in HP. congruence.
  - exact IH.
Qed.

Lemma get_recent_events_known now self u w state :
  _store self !! u = Some state ->
  get_recent_events now self u w =
  windowed_spec now (window_or w (max_window_minutes self))
                (recent_events state).
Proof.
  intros Hl. unfold get_recent_events, windowed_spec. rewrite Hl.
  apply filter_bool_prop. intros e. apply Qgtb_gt.
Qed.

(** C7, as the claim states it, fails at a window of 0 minutes: the
    event of [recent_store] is ten seconds older than the read, so no
    window of zero width contains it, yet the read returns it, because a
    window of 0 is replaced by the store's [max_window_minutes]. *)
Lemma windowed_read_zero_minutes :
  _store recent_store !! "u"
  = Some {| recent_events := [sample_event "u" 10 1699999990];
            feature_vector := ∅;
            last_updated := 1700000000;
            created_at := 1700000000 |}
  /\ windowed_spec 1700000000 0 [sample_event "u" 10 1699999990] = []
  /\ get_recent_events 1700000000 recent_store "u" (Some 0)
     = [sample_event "u" 10 1699999990].
Proof. repeat split; reflexivity. Qed.

(** C7 (amended): for a known id and a window size other than 0, the
    windowed read returns exactly the events of the history with
    [timestampEpoch > now - minutes * 60], in insertion order; a window
    size of 0, like an omitted one, is replaced by the store's
    [max_window_minutes]; for an unknown id the read is empty. *)
Theorem windowed_read_nonzero_minutes now self u :
  (forall state minutes,
     _store self !! u = Some state -> minutes <> 0 ->
     get_recent_events now self u (Some minutes)
     = windowed_spec now minutes (recent_events state)
     /\ get_recent_events now self u (Some minutes)
        `sublist_of` recent_events state)
  /\ (forall state,
        _store self !! u = Some state ->
        get_recent_events now self u (Some 0)
        = windowed_spec now (max_window_minutes self) (recent_events state)
        /\ get_recent_events now self u None
           = windowed_spec now (max_window_minutes self)
                           (recent_events state))
  /\ (forall w, _store self !! u = None ->
                get_recent_events now self u w = []).
Proof.
  split; [|split].
  - intros state minutes Hl Hm.
    rewrite (get_recent_events_known _ _ _ _ _ Hl). simpl.
    destruct (Z.eqb_spec minutes 0) as [E|_]; [contradiction|].
    split; [reflexivity|]. apply sublist_filter.
  - intros state Hl.
    rewrite !(get_recent_events_known _ _ _ _ _ Hl). done.
  - intros w Hl. unfold get_recent_events. by rewrite Hl.
Qed.

Lemma windowed_read_nonzero_minutes_witness :
  get_recent_events 1700000000 recent_store "u" (Some 60)
  = windowed_spec 1700000000 60 [sample_event "u" 10 1699999990]
  /\ get_recent_events 1700000000 recent_store "u" (Some 60)
     `sublist_of` [sample_event "u" 10 1699999990].
Proof.
  apply (proj1 (windowed_read_nonzero_minutes 1700000000 recent_store "u")
           {| recent_events := [sample_event "u" 10 1699999990];
              feature_vector := ∅;
              last_updated := 1700000000;
              created_at := 1700000000 |} 60).
  - reflexivity.
  - discriminate.
Defined.

End windowed_read.

(** ** Events without [timestamp_unix] *)
Section undated.
Import state_store store_run windowed instance.

(** C10, as the claim states it, fails for a window that reaches back
    past the epoch: at a read in November 2023 with a window of
    30,000,000 minutes the cutoff is negative, and the undated event,
    read as epoch 0, is in the slice. *)
Lemma undated_event_in_wide_window :
  timestamp_unix (undated_event "u" 10) = None
  /\ _store undated_store !! "u"
     = Some {| recent_events := [undated_event "u" 10];
               feature_vector := ∅;
               last_updated := 1700000000;
               created_at := 1700000000 |}
  /\ get_recent_events 1700000000 undated_store "u" (Some 30000000)
     = [undated_event "u" 10].
Proof. repeat split; reflexivity. Qed.

(** C10 (amended): a stored event without [timestamp_unix] is read as
    epoch 0. It is excluded from every windowed slice whose cutoff
    [now - minutes * 60] is not negative, and a sweep whose cutoff is
    positive trims it as soon as every event before it in the history
    is older than the cutoff. *)
Theorem undated_event_reads_as_epoch_zero now self u state e :
  _store self !! u = Some state ->
  timestamp_unix e = None ->
  get_timestamp_unix e = 0%Q
  /\ (forall w,
        (0 <= now - inject_Z
                  (window_or w (max_window_minutes self) * 60))%Q ->
        e ∉ get_recent_events now self u w)
  /\ (forall pre post,
        recent_events state = pre ++ e :: post ->
        Forall (fun e' => (get_timestamp_unix e' < reap_cutoff now self)%Q)
               pre ->
        (0 < reap_cutoff now self)%Q ->
        _store (clear_old_entries now self).2 !! u =
        Some {| recent_events := popleft_while (reap_cutoff now self) post;
                feature_vector := feature_vector state;
                last_updated := last_updated state;
                created_at := created_at state |}).
Proof.
  intros Hl Hts.
  assert (H0 : get_timestamp_unix e = 0%Q).
  { unfold get_timestamp_unix. by rewrite Hts. }
  split; [exact H0|]. split.
  - intros w Hcut. rewrite (get_recent_events_known _ _ _ _ _ Hl).
    unfold windowed_spec. rewrite list_elem_of_filter.
    intros [Hlt _]. unfold timestampEpoch in Hlt. rewrite H0 in Hlt.
    exact (Qlt_not_le _ _ Hlt Hcut).
  - intros pre post Hhist Hpre Hcut.
    rewrite clear_old_entries_lookup, Hl.
    assert (R : to_remove (reap_cutoff now self) state = false).
    { destruct (to_remove _ state) eqn:R; [|reflexivity].
      apply to_remove_true in R. destruct R as (_ & _ & R).
      rewrite R in Hhist. by destruct pre. }
    rewrite R. unfold sweep_state. rewrite R, Hhist.
    rewrite popleft_while_app by exact Hpre. simpl.
    rewrite H0. apply Qltb_lt in Hcut. rewrite Hcut. reflexivity.
Qed.

Lemma undated_event_reads_as_epoch_zero_witness :
  get_timestamp_unix (undated_event "u" 10) = 0%Q
  /\ (undated_event "u" 10
      ∉ get_recent_events 1700000000 undated_store "u" (Some 60))
  /\ _store (clear_old_entries 1700000000 undated_store).2 !! "u" =
     Some {| recent_events := [];
             feature_vector := ∅;
             last_updated := 1700000000;
             created_at := 1700000000 |}.
Proof.
  destruct (undated_event_reads_as_epoch_zero 1700000000 undated_store "u"
              {| recent_events := [undated_event "u" 10];
                 feature_vector := ∅;
                 last_updated := 1700000000;
                 created_at := 1700000000 |}
              (undated_event "u" 10))
    as (H0 & Hwin & Hreap).
  - reflexivity.
  - reflexivity.
  - split; [exact H0|]. split.
    + apply Hwin. vm_compute. discriminate.
    + apply (Hreap [] []).
      * reflexivity.
      * constructor.
      * reflexivity.
Defined.

End undated.

(** ** Reading features *)
Section feature_read.
Import state_store store_run streaming_features instance.

Lemma get_features_fst now self u :
  (get_features now self u).1 =
  fill_defaults (feature_vector (state_or_new now self u)).
Proof.
  unfold get_features. rewrite <- get_user_features_fst.
  destruct (get_user_features now self u); reflexivity.
Qed.

Lemma fill_defaults_empty :
  fill_defaults ∅ =
  <["transaction_velocity_1h" := PFloat 0]>
    (<["amount_zscore" := PFloat 0]>
       (<["amount_volatility" := PFloat 0]>
          (<["location_anomaly" := PInt 0]>
             (<["location_consistency" := PFloat 1]>
                (<["time_pattern_score" := PFloat 0]>
                   (<["merchant_diversity" := PFloat 0]>
                      (<["payment_method_consistency" := PFloat 1]> ∅))))))).
Proof. reflexivity. Qed.

(** C4: for every id whose stored feature vector is empty or absent (no
    event was ever processed for it), [get_features] returns the mapping
    with exactly the eight named features at their defaults: velocity 0,
    z-score 0, volatility 0, location anomaly 0, location consistency 1.0,
    time pattern score 0, merchant diversity 0 and payment method
    consistency 1.0. *)
Theorem get_features_unknown_entity_defaults now self u :
  (forall state, _store self !! u = Some state -> feature_vector state = ∅) ->
  (get_features now self u).1 =
  <["transaction_velocity_1h" := PFloat 0]>
    (<["amount_zscore" := PFloat 0]>
       (<["amount_volatility" := PFloat 0]>
          (<["location_anomaly" := PInt 0]>
             (<["location_consistency" := PFloat 1]>
                (<["time_pattern_score" := PFloat 0]>
                   (<["merchant_diversity" := PFloat 0]>
                      (<["payment_method_consistency" := PFloat 1]> ∅)))))))
  /\ size (get_features now self u).1 = 8%nat.
Proof.
  intros Hempty.
  assert (E : (get_features now self u).1 = fill_defaults ∅).
  { rewrite get_features_fst. unfold state_or_new.
    destruct (_store self !! u) as [state|] eqn:Hl; simpl.
    - by rewrite (Hempty state).
    - reflexivity. }
  rewrite E. split; [apply fill_defaults_empty|].
  reflexivity.
Qed.

Lemma get_features_unknown_entity_defaults_witness :
  (get_features 1700000000 undated_store "nobody").1 =
  <["transaction_velocity_1h" := PFloat 0]>
    (<["amount_zscore" := PFloat 0]>
       (<["amount_volatility" := PFloat 0]>
          (<["location_anomaly" := PInt 0]>
             (<["location_consistency" := PFloat 1]>
                (<["time_pattern_score" := PFloat 0]>
                   (<["merchant_diversity" := PFloat 0]>
                      (<["payment_method_consistency" := PFloat 1]> ∅)))))))
  /\ size (get_features 1700000000 undated_store "nobody").1 = 8%nat.
Proof.
  apply (get_features_unknown_entity_defaults 1700000000 undated_store
           "nobody").
  intros state H. vm_compute in H. discriminate H.
Defined.

Lemma state_or_new_after_get_user_state now now' self u v :
  feature_vector (state_or_new now' (get_user_state now self u).2 v) =
  feature_vector (state_or_new now' self v).
Proof.
  unfold state_or_new. destruct (decide (u = v)) as [<-|Hne].
  - rewrite get_user_state_lookup, get_user_state_fst. unfold state_or_new.
    destruct (_store self !! u); reflexivity.
  - by rewrite get_user_state_other.
Qed.

Lemma get_user_state_twice now now' self u :
  (get_user_state now' (get_user_state now self u).2 u).2 =
  (get_user_state now self u).2.
Proof.
  unfold get_user_state at 1. by rewrite get_user_state_lookup.
Qed.

Lemma get_recent_events_after_get_user_state now now' self u v w :
  get_recent_events now' (get_user_state now self u).2 v w =
  get_recent_events now' self v w.
Proof.
  destruct (_store self !! u) as [state|] eqn:Hl.
  - by rewrite (get_user_state_known _ _ _ _ Hl).
  - rewrite (get_user_state_unknown _ _ _ Hl). unfold get_recent_events.
    simpl. destruct (decide (u = v)) as [<-|Hne].
    + by rewrite lookup_insert_eq, Hl.
    + by rewrite lookup_insert_ne.
Qed.

Lemma get_stats_after_get_user_state now self u :
  get_stats (get_user_state now self u).2 =
  match _store self !! u with
  | Some _ => get_stats self
  | None =>
      {| total_users := S (total_users (get_stats self));
         total_events := total_events (get_stats self);
         stats_max_window_minutes := stats_max_window_minutes (get_stats self);
         stats_last_cleanup := stats_last_cleanup (get_stats self) |}
  end.
Proof.
  destruct (_store self !! u) as [state|] eqn:Hl.
  - by rewrite (get_user_state_known _ _ _ _ Hl).
  - rewrite (get_user_state_unknown _ _ _ Hl). unfold get_stats. simpl.
    rewrite map_size_insert_None by exact Hl.
    rewrite map_fold_insert_L; [reflexivity| |exact Hl].
    intros. lia.
Qed.

(** C9, as the claim states it, fails: the two calls do return identical
    mappings, but the first call on an id the store has not seen inserts
    a state for it, so a later read is affected: the statistics read
    counts two users where it counted one. *)
Lemma feature_read_changes_stats_read :
  _store recent_store !! "ghost" = None
  /\ (get_features 1700000006
        (get_features 1700000005 recent_store "ghost").2 "ghost").1
     = (get_features 1700000005 recent_store "ghost").1
  /\ total_users (get_stats recent_store) = 1%nat
  /\ total_users
       (get_stats (get_features 1700000005 recent_store "ghost").2) = 2%nat
  /\ get_stats (get_features 1700000005 recent_store "ghost").2
     <> get_stats recent_store.
Proof.
  split; [reflexivity|]. split; [reflexivity|]. split; [reflexivity|].
  split; [reflexivity|].
  intros H. apply (f_equal total_users) in H. vm_compute in H.
  discriminate H.
Qed.

(** C9 (amended): two calls of [get_features] for an id, with nothing in
    between, return identical mappings, whatever the store and the
    clock; the second call leaves the store as the first one left it,
    and after the first call every feature read and every windowed read,
    for any id, returns what it would have returned before it. The
    statistics read is affected by the first call exactly when the id
    was unknown: for a known id the store is unchanged, and for an
    unknown id a new empty state is inserted, so [total_users] grows by
    one while [total_events], the window and the cleanup time stay as
    they were; the second call changes no statistic. *)
Theorem get_features_idempotent_up_to_user_count now1 now2 self u :
  (get_features now2 (get_features now1 self u).2 u).1
  = (get_features now1 self u).1
  /\ (get_features now2 (get_features now1 self u).2 u).2
     = (get_features now1 self u).2
  /\ (forall now v,
        (get_features now (get_features now1 self u).2 v).1
        = (get_features now self v).1)
  /\ (forall now v w,
        get_recent_events now (get_features now1 self u).2 v w
        = get_recent_events now self v w)
  /\ get_stats (get_features now2 (get_features now1 self u).2 u).2
     = get_stats (get_features now1 self u).2
  /\ (is_Some (_store self !! u) -> (get_features now1 self u).2 = self)
  /\ (_store self !! u = None ->
      _store (get_features now1 self u).2 !! u = Some (UserState_new now1)
      /\ total_users (get_stats (get_features now1 self u).2)
         = S (total_users (get_stats self))
      /\ total_events (get_stats (get_features now1 self u).2)
         = total_events (get_stats self)
      /\ stats_max_window_minutes (get_stats (get_features now1 self u).2)
         = stats_max_window_minutes (get_stats self)
      /\ stats_last_cleanup (get_stats (get_features now1 self u).2)
         = stats_last_cleanup (get_stats self)).
Proof.
  assert (Hread : forall now v,
             (get_features now (get_features now1 self u).2 v).1
             = (get_features now self v).1).
  { intros now v. rewrite !get_features_fst, get_features_store.
    by rewrite state_or_new_after_get_user_state. }
  assert (Hstore : (get_features now2 (get_features now1 self u).2 u).2
                   = (get_features now1 self u).2).
  { rewrite !get_features_store. apply get_user_state_twice. }
  repeat apply conj.
  - rewrite Hread, !get_features_fst. unfold state_or_new.
    destruct (_store self !! u); reflexivity.
  - exact Hstore.
  - exact Hread.
  - intros now v w. rewrite get_features_store.
    apply get_recent_events_after_get_user_state.
  - by rewrite Hstore.
  - intros [state Hl]. rewrite get_features_store.
    by rewrite (get_user_state_known _ _ _ _ Hl).
  - intros Hl.
    assert (Hstats := get_stats_after_get_user_state now1 self u).
    rewrite Hl in Hstats. rewrite get_features_store.
    split; [|by rewrite Hstats].
    rewrite get_user_state_lookup, get_user_state_fst.
    unfold state_or_new. by rewrite Hl.
Qed.

Lemma get_features_idempotent_up_to_user_count_witness :
  (get_features 1700000006
     (get_features 1700000005 recent_store "ghost").2 "ghost").1
  = (get_features 1700000005 recent_store "ghost").1
  /\ total_users
       (get_stats (get_features 1700000005 recent_store "ghost").2)
     = S (total_users (get_stats recent_store))
  /\ (get_features 1700000005 recent_store "u").2 = recent_store.
Proof.
  pose proof (get_features_idempotent_up_to_user_count
                1700000005 1700000006 recent_store "ghost") as Hghost.
  pose proof (get_features_idempotent_up_to_user_count
                1700000005 1700000006 recent_store "u") as Hknown.
  split; [exact (proj1 Hghost)|]. split.
  - destruct Hghost as (_ & _ & _ & _ & _ & _ & Hnew).
    exact (proj1 (proj2 (Hnew eq_refl))).
  - destruct Hknown as (_ & _ & _ & _ & _ & Hsame & _).
    apply Hsame. eexists. reflexivity.
Defined.

End feature_read.

(** ** Parsing timestamps *)
Section parsing.
Import time_utils instance.

Variable datetime : Type.
Variable fromisoformat : string -> result datetime.
Variable dt_timestamp : datetime -> result Q.

Section library_contract.
(** A contract under which the library calls inside the [try] report
    every failure by [ValueError]. *)
Hypothesis fromisoformat_raises :
  forall s e, fromisoformat s = Raise e -> e = ValueError.
Hypothesis dt_timestamp_raises :
  forall dt e, dt_timestamp dt = Raise e -> e = ValueError.

Lemma parse_timestamp_try_raises ts e :
  parse_timestamp_try datetime fromisoformat dt_timestamp ts = Raise e ->
  e = ValueError \/ e = AttributeError
  \/ (ts = PyOtherReplace /\ e = TypeError).
Proof.
  unfold parse_timestamp_try, mbind, result_bind.
  destruct ts as [s| |]; simpl.
  - destruct (fromisoformat (replace_Z s)) as [dt|e'] eqn:Hiso.
    + intros H. left. by apply (dt_timestamp_raises dt).
    + intros [= <-]. left. by apply (fromisoformat_raises (replace_Z s)).
  - intros [= <-]. right. by left.
  - intros [= <-]. right. by right.
Qed.

Lemma parse_timestamp_str_returns now s :
  exists t,
    parse_timestamp datetime fromisoformat dt_timestamp now (PyStr s) = Ok t.
Proof.
  unfold parse_timestamp.
  destruct (parse_timestamp_try datetime fromisoformat dt_timestamp (PyStr s))
    as [t|e] eqn:E; [eauto|].
  destruct (parse_timestamp_try_raises (PyStr s) e E)
    as [-> | [-> | [[=] _]]]; eauto.
Qed.
End library_contract.

Lemma replace_Z_app (s t : string) :
  replace_Z (s +:+ t) = replace_Z s +:+ replace_Z t.
Proof.
  induction s as [|c s IH]; simpl; [reflexivity|].
  rewrite IH. destruct (Ascii.eqb c "Z"); reflexivity.
Qed.

Lemma parse_timestamp_reraises now ts e :
  parse_timestamp_try datetime fromisoformat dt_timestamp ts = Raise e ->
  e <> ValueError -> e <> AttributeError ->
  parse_timestamp datetime fromisoformat dt_timestamp now ts = Raise e.
Proof.
  intros He Hv Ha. unfold parse_timestamp. rewrite He.
  destruct e; try reflexivity; [by destruct Hv | by destruct Ha].
Qed.

(** C8 (amended): [parse_timestamp] returns the parsed epoch when the
    body of its [try] returns one, and the current time whenever that
    body raises [ValueError] or [AttributeError]; every other exception
    raised there is raised by [parse_timestamp] itself. So a value
    without a [replace] attribute yields the current time; a value whose
    [replace] is not [str.replace] ([bytes], a [datetime]) makes
    [parse_timestamp] raise [TypeError]; a string for which
    [fromisoformat] and [timestamp()] fail by [ValueError] only yields an
    epoch; and an [OverflowError] or [OSError] from [timestamp()] is
    raised to the caller. A trailing ["Z"] is read as ["+00:00"]. *)
Theorem parse_timestamp_outcomes now ts :
  (forall t,
     parse_timestamp_try datetime fromisoformat dt_timestamp ts = Ok t ->
     parse_timestamp datetime fromisoformat dt_timestamp now ts = Ok t)
  /\ (forall e,
        parse_timestamp_try datetime fromisoformat dt_timestamp ts = Raise e ->
        e = ValueError \/ e = AttributeError ->
        parse_timestamp datetime fromisoformat dt_timestamp now ts = Ok now)
  /\ (forall e,
        parse_timestamp_try datetime fromisoformat dt_timestamp ts = Raise e ->
        e <> ValueError -> e <> AttributeError ->
        parse_timestamp datetime fromisoformat dt_timestamp now ts = Raise e)
  /\ parse_timestamp datetime fromisoformat dt_timestamp now PyNoReplace
     = Ok now
  /\ parse_timestamp datetime fromisoformat dt_timestamp now PyOtherReplace
     = Raise TypeError
  /\ (forall s,
        (forall e, fromisoformat (replace_Z s) = Raise e -> e = ValueError) ->
        (forall dt e,
           fromisoformat (replace_Z s) = Ok dt ->
           dt_timestamp dt = Raise e -> e = ValueError) ->
        exists t,
          parse_timestamp datetime fromisoformat dt_timestamp now (PyStr s)
          = Ok t)
  /\ (forall s dt e,
        fromisoformat (replace_Z s) = Ok dt ->
        dt_timestamp dt = Raise e ->
        e <> ValueError -> e <> AttributeError ->
        parse_timestamp datetime fromisoformat dt_timestamp now (PyStr s)
        = Raise e)
  /\ (forall s,
        parse_timestamp_try datetime fromisoformat dt_timestamp
                            (PyStr (s +:+ "Z"))
        = dt ← fromisoformat (replace_Z s +:+ "+00:00"); dt_timestamp dt).
Proof.
  repeat apply conj.
  - intros t Ht. unfold parse_timestamp. by rewrite Ht.
  - intros e He [-> | ->]; unfold parse_timestamp; by rewrite He.
  - intros e. apply parse_timestamp_reraises.
  - reflexivity.
  - reflexivity.
  - intros s Hiso Hstamp.
    unfold parse_timestamp, parse_timestamp_try, mbind, result_bind. simpl.
    destruct (fromisoformat (replace_Z s)) as [dt|e] eqn:E.
    + destruct (dt_timestamp dt) as [t|e] eqn:E'; [eauto|].
      rewrite (Hstamp dt e eq_refl E'). eauto.
    + rewrite (Hiso e eq_refl). eauto.
  - intros s dt e Hiso Hstamp. apply parse_timestamp_reraises.
    unfold parse_timestamp_try, mbind, result_bind. simpl.
    by rewrite Hiso.
  - intros s. unfold parse_timestamp_try, mbind, result_bind. simpl.
    by rewrite replace_Z_app.
Qed.

End parsing.

Lemma iso_utc_raises s e : instance.iso_utc s = Raise e -> e = ValueError.
Proof.
  unfold instance.iso_utc. destruct (instance.iso_utc_parse s); congruence.
Qed.

Lemma utc_timestamp_raises dt e :
  instance.utc_timestamp dt = Raise e -> e = ValueError.
Proof. discriminate. Qed.

(** C8, as the claim states it, fails: handed a value whose [replace] is
    not [str.replace], such as [b"2023-11-14T22:13:20Z"], the call
    [timestamp_str.replace('Z', '+00:00')] raises [TypeError], which the
    [except (ValueError, AttributeError)] clause does not catch; no
    epoch is returned and the current time is not substituted. *)
Lemma parse_timestamp_raises_type_error :
  time_utils.parse_timestamp_try Z instance.iso_utc instance.utc_timestamp
    PyOtherReplace = Raise TypeError
  /\ time_utils.parse_timestamp Z instance.iso_utc instance.utc_timestamp
       1700000123 PyOtherReplace = Raise TypeError
  /\ ~ (exists t,
          time_utils.parse_timestamp Z instance.iso_utc
            instance.utc_timestamp 1700000123 PyOtherReplace = Ok t).
Proof.
  split; [reflexivity|]. split; [reflexivity|].
  intros [t Ht]. discriminate Ht.
Qed.

Lemma parse_timestamp_outcomes_witness :
  time_utils.parse_timestamp Z instance.iso_utc instance.utc_timestamp
    1700000123 (PyStr "yesterday") = Ok 1700000123%Q
  /\ time_utils.parse_timestamp Z instance.iso_utc instance.utc_timestamp
       1700000123 PyNoReplace = Ok 1700000123%Q
  /\ time_utils.parse_timestamp Z instance.iso_utc instance.utc_timestamp
       1700000123 (PyStr "2023-11-14T22:13:20Z") = Ok 1700000000%Q.
Proof.
  split; [|split].
  - apply (proj1 (proj2 (parse_timestamp_outcomes
                           Z instance.iso_utc instance.utc_timestamp
                           1700000123 (PyStr "yesterday"))) ValueError).
    + reflexivity.
    + by left.
  - apply (proj1 (proj2 (proj2 (proj2 (parse_timestamp_outcomes
                           Z instance.iso_utc instance.utc_timestamp
                           1700000123 PyNoReplace))))).
  - apply (proj1 (parse_timestamp_outcomes
                    Z instance.iso_utc instance.utc_timestamp
                    1700000123 (PyStr "2023-11-14T22:13:20Z"))).
    reflexivity.
Defined.

(** ** The substitute standard deviation of the amount features *)
Section amount.
Import pystats streaming_features instance.

Variable sqrt : Q -> Q.

Lemma pydiv_ok (a b : Q) : ~ (b == 0)%Q -> pydiv a b = Ok (a / b)%Q.
Proof.
  intros H. unfold pydiv. destruct (Qeq_bool b 0) eqn:E; [|reflexivity].
  apply Qeq_bool_iff in E. contradiction.
Qed.

Lemma Qpos_nonzero (x : Q) : (0 < x)%Q -> ~ (x == 0)%Q.
Proof. intros Hpos Hz. rewrite Hz in Hpos. exact (Qlt_irrefl _ Hpos). Qed.

Lemma default_std_zero (m : Q) : (m == 0)%Q -> default_std m = 1%Q.
Proof.
  intros H. unfold default_std. apply Qeq_bool_iff in H. by rewrite H.
Qed.

Lemma default_std_nonzero (m : Q) :
  ~ (m == 0)%Q -> default_std m = (Qabs m * (1 # 10))%Q.
Proof.
  intros H. unfold default_std.
  destruct (Qeq_bool m 0) eqn:E; [|reflexivity].
  apply Qeq_bool_iff in E. contradiction.
Qed.

Lemma Qabs_pos_nonzero (m : Q) : ~ (m == 0)%Q -> (0 < Qabs m)%Q.
Proof.
  intros H. apply Qabs_case; intros Hm.
  - destruct (Qle_lt_or_eq _ _ Hm) as [Hlt|Heq]; [exact Hlt|].
    exfalso. apply H. symmetry. exact Heq.
  - destruct (Qle_lt_or_eq _ _ Hm) as [Hlt|Heq]; [lra|contradiction].
Qed.

Lemma default_std_pos (m : Q) : (0 < default_std m)%Q.
Proof.
  destruct (Qeq_dec m 0) as [H|H].
  - rewrite (default_std_zero m H). reflexivity.
  - rewrite (default_std_nonzero m H).
    pose proof (Qabs_pos_nonzero m H). lra.
Qed.

Lemma snoc_of_two_or_more {A} (l : list A) :
  (2 <= length l)%nat ->
  exists init x, l = init ++ [x] /\ init <> [].
Proof.
  destruct l as [|a l] using rev_ind; simpl; [lia|].
  intros H. exists l, a. split; [reflexivity|].
  intros ->. simpl in H. lia.
Qed.

Lemma amount_features_snoc (events : list Event) init recent :
  map (fun e => default 0%Q (amount e)) events = init ++ [recent] ->
  init <> [] ->
  _calculate_amount_features sqrt events =
  (mean_amount ← mean init;
   std ← std_amount sqrt init mean_amount;
   zscore ← pydiv (recent - mean_amount) std;
   volatility ←
     (if Qgtb mean_amount 0
      then q ← pydiv std mean_amount; Ok (PFloat q)
      else Ok (PInt 0));
   Ok (amount_features (PFloat zscore) volatility)).
Proof.
  intros Hamounts Hinit. unfold _calculate_amount_features.
  rewrite Hamounts.
  assert (Hlen : (length (init ++ [recent]) <? 2)%nat = false).
  { apply Nat.ltb_ge. rewrite length_app. simpl.
    destruct init; [contradiction|simpl; lia]. }
  rewrite Hlen. unfold last_item. rewrite last_snoc.
  rewrite removelast_last.
  destruct init; [contradiction|reflexivity].
Qed.

(** C2, as the claim states it, fails: with one historical amount of 5
    (slice 5, 7), and with two equal historical amounts of 5 whose sample
    standard deviation is 0 (slice 5, 5, 7), the standard deviation used
    is 0.5, not max(0.5, 1.0) = 1.0; the z-score of the amount 7 is 4, not
    2. *)
Lemma degenerate_std_is_not_floored_at_one :
  removelast [5%Q; 7%Q] = [5%Q]
  /\ std_amount sqrt_approx [5%Q] 5 = Ok (5 # 10)%Q
  /\ (exists s, stdev sqrt_approx [5%Q; 5%Q] = Ok s /\ (s == 0)%Q)
  /\ std_amount sqrt_approx [5%Q; 5%Q] (10 # 2) = Ok (10 # 20)%Q
  /\ ~ ((5 # 10) == Qmax (Qabs 5 * (1 # 10)) 1)%Q
  /\ _calculate_amount_features sqrt_approx
       [sample_event "u" 5 0; sample_event "u" 7 0]
     = Ok (amount_features (PFloat (20 # 5)) (PFloat (5 # 50)))
  /\ _calculate_amount_features sqrt_approx
       [sample_event "u" 5 0; sample_event "u" 5 0; sample_event "u" 7 0]
     = Ok (amount_features (PFloat (80 # 20)) (PFloat (20 # 200))).
Proof.
  split; [reflexivity|]. split; [reflexivity|].
  split; [eexists; split; reflexivity|].
  split; [reflexivity|].
  split; [vm_compute; discriminate|].
  split; reflexivity.
Qed.

(** C2 (amended): for every slice with at least 2 amounts, whenever the
    standard deviation degenerates (exactly one historical amount, or a
    sample standard deviation of two or more historical amounts that
    evaluates to 0), the standard deviation used for the z-score and the
    volatility is |mean| * 0.1 if the mean is not 0, and 1.0 if it is.
    That value is max(|mean| * 0.1, 1.0) when the mean is 0 or |mean| is
    at least 10, and is below it otherwise. *)
Theorem degenerate_std_is_tenth_of_mean (events : list Event) :
  (2 <= length events)%nat ->
  exists recent_amount mean_amount,
    last (map (fun e => default 0%Q (amount e)) events) = Some recent_amount
    /\ mean (removelast (map (fun e => default 0%Q (amount e)) events))
       = Ok mean_amount
    /\ (length (removelast (map (fun e => default 0%Q (amount e)) events))
        = 1%nat
        \/ (exists s,
              stdev sqrt
                (removelast (map (fun e => default 0%Q (amount e)) events))
              = Ok s /\ (s == 0)%Q) ->
        std_amount sqrt
          (removelast (map (fun e => default 0%Q (amount e)) events))
          mean_amount
        = Ok (default_std mean_amount)
        /\ _calculate_amount_features sqrt events
           = Ok (amount_features
                   (PFloat ((recent_amount - mean_amount)
                            / default_std mean_amount))
                   (if Qgtb mean_amount 0
                    then PFloat (default_std mean_amount / mean_amount)
                    else PInt 0)))
    /\ ((mean_amount == 0)%Q -> default_std mean_amount = 1%Q)
    /\ (~ (mean_amount == 0)%Q ->
        default_std mean_amount = (Qabs mean_amount * (1 # 10))%Q)
    /\ ((mean_amount == 0)%Q \/ (10 <= Qabs mean_amount)%Q ->
        (default_std mean_amount
         == Qmax (Qabs mean_amount * (1 # 10)) 1)%Q)
    /\ (~ (mean_amount == 0)%Q -> (Qabs mean_amount < 10)%Q ->
        (default_std mean_amount
         < Qmax (Qabs mean_amount * (1 # 10)) 1)%Q).
Proof.
  intros Hlen.
  destruct (snoc_of_two_or_more
              (map (fun e => default 0%Q (amount e)) events))
    as (init & recent & Hamounts & Hinit).
  { by rewrite length_map. }
  rewrite Hamounts, last_snoc, removelast_last.
  exists recent, (Qsum init / Qlen init)%Q.
  set (m := (Qsum init / Qlen init)%Q).
  assert (Hmean : mean init = Ok m).
  { unfold mean. destruct init; [contradiction|reflexivity]. }
  split; [reflexivity|]. split; [exact Hmean|].
  split; [|split; [|split; [|split]]].
  - intros Hdeg.
    assert (Hstd : std_amount sqrt init m = Ok (default_std m)).
    { unfold std_amount. destruct Hdeg as [H1|(s & Hs & Hz)].
      - by rewrite H1.
      - destruct (length init =? 1)%nat; [reflexivity|].
        rewrite Hs. apply Qeq_bool_iff in Hz. by rewrite Hz. }
    split; [exact Hstd|].
    rewrite (amount_features_snoc events init recent Hamounts Hinit).
    rewrite Hmean. unfold mbind at 1, result_bind at 1.
    rewrite Hstd. unfold mbind at 1, result_bind at 1.
    pose proof (default_std_pos m) as Hpos.
    rewrite (pydiv_ok (recent - m) (default_std m))
      by (by apply Qpos_nonzero).
    unfold mbind at 1, result_bind at 1.
    destruct (Qgtb m 0) eqn:Hgt.
    + apply Qgtb_gt in Hgt.
      rewrite (pydiv_ok (default_std m) m) by (by apply Qpos_nonzero).
      reflexivity.
    + reflexivity.
  - apply default_std_zero.
  - apply default_std_nonzero.
  - intros [Hz|Hbig].
    + rewrite (default_std_zero m Hz).
      assert (E : (Qabs m == 0)%Q) by (rewrite Hz; reflexivity).
      rewrite E. reflexivity.
    + assert (Hnz : ~ (m == 0)%Q).
      { intros Hz. rewrite Hz in Hbig. vm_compute in Hbig. by apply Hbig. }
      rewrite (default_std_nonzero m Hnz).
      symmetry. apply Q.max_l. lra.
  - intros Hnz Hsmall. rewrite (default_std_nonzero m Hnz).
    apply Q.max_lt_iff. right. lra.
Qed.

End amount.

Lemma degenerate_std_is_tenth_of_mean_witness :
  exists recent_amount mean_amount,
    last [5%Q; 7%Q] = Some recent_amount
    /\ pystats.mean [5%Q] = Ok mean_amount
    /\ streaming_features.std_amount instance.sqrt_approx [5%Q] mean_amount
       = Ok (streaming_features.default_std mean_amount)
    /\ streaming_features._calculate_amount_features instance.sqrt_approx
         [instance.sample_event "u" 5 0; instance.sample_event "u" 7 0]
       = Ok (streaming_features.amount_features
               (PFloat ((recent_amount - mean_amount)
                        / streaming_features.default_std mean_amount))
               (if Qgtb mean_amount 0
                then PFloat (streaming_features.default_std mean_amount / mean_amount)
                else PInt 0)).
Proof.
  destruct (degenerate_std_is_tenth_of_mean instance.sqrt_approx
              [instance.sample_event "u" 5 0; instance.sample_event "u" 7 0])
    as (recent & m & Hlast & Hmean & Hdeg & _).
  - simpl. lia.
  - exists recent, m. split; [exact Hlast|]. split; [exact Hmean|].
    apply Hdeg. left. reflexivity.
Defined.

(** ** Faults during feature computation *)
Section faults.
Import time_utils state_store store_run pystats streaming_features instance.

Variable datetime : Type.
Variable fromisoformat : string -> result datetime.
Variable dt_timestamp : datetime -> result Q.
Variable utc_offset : Z.
Variable sqrt : Q -> Q.

Lemma deque_append_last (d : list Event) e :
  last (deque_append d e) = Some e.
Proof.
  unfold deque_append.
  destruct (Nat.ltb_spec maxlen (length (d ++ [e]))) as [Hlt|_].
  - destruct d as [|x d].
    + simpl in Hlt. unfold maxlen in Hlt. lia.
    + simpl. apply last_snoc.
  - apply last_snoc.
Qed.

Lemma process_event_before_append clock self event :
  (forall x,
     ensure_timestamp_unix datetime fromisoformat dt_timestamp
                           (clock 0%nat) event = Raise x ->
     process_event datetime fromisoformat dt_timestamp utc_offset sqrt
                   clock self event = (false, self))
  /\ (forall event',
        ensure_timestamp_unix datetime fromisoformat dt_timestamp
                              (clock 0%nat) event = Ok event' ->
        user_id event' = None ->
        process_event datetime fromisoformat dt_timestamp utc_offset sqrt
                      clock self event = (false, self)).
Proof.
  split.
  - intros x Hx. unfold process_event. by rewrite Hx.
  - intros event' He Hu. unfold process_event, event_user_id.
    by rewrite He, Hu.
Qed.

Lemma process_event_bounded clock self event :
  bounded self ->
  bounded (process_event datetime fromisoformat dt_timestamp utc_offset sqrt
                         clock self event).2.
Proof.
  intros Hb. unfold process_event.
  destruct (ensure_timestamp_unix _ _ _ _ event) as [event'|]; [|exact Hb].
  destruct (event_user_id event') as [uid|]; [|exact Hb].
  pose proof (bounded_update_user_events (clock 1%nat) self uid event' Hb)
    as Hb1.
  destruct (_calculate_features _ _ _ _ _) as [features|]; [|exact Hb1].
  pose proof (bounded_update_user_features (clock 5%nat) _ uid features Hb1)
    as Hb2.
  destruct (should_cleanup _ _); [|exact Hb2].
  by apply bounded_clear_old_entries.
Qed.

(** C5: once the event (with its epoch derived) has been appended under
    its user id, an exception raised by the feature computation makes
    [process_event] return false and leaves the store exactly as the
    append left it: the event is the newest entry of the user's history,
    the feature vector is the one from before the call and the other
    users are untouched. [process_event] returns a boolean in every case,
    so no exception reaches the caller; when the computation raises
    nothing, it returns true. *)
Theorem process_event_fault_keeps_appended_event clock self event event' uid :
  ensure_timestamp_unix datetime fromisoformat dt_timestamp
                        (clock 0%nat) event = Ok event' ->
  user_id event' = Some uid ->
  (forall x,
     _calculate_features utc_offset sqrt clock
       (update_user_events (clock 1%nat) self uid event') uid = Raise x ->
     process_event datetime fromisoformat dt_timestamp utc_offset sqrt
                   clock self event
     = (false, update_user_events (clock 1%nat) self uid event'))
  /\ (forall features,
        _calculate_features utc_offset sqrt clock
          (update_user_events (clock 1%nat) self uid event') uid
        = Ok features ->
        (process_event datetime fromisoformat dt_timestamp utc_offset sqrt
                       clock self event).1 = true)
  /\ (exists state,
        _store (update_user_events (clock 1%nat) self uid event') !! uid
        = Some state
        /\ last (recent_events state) = Some event'
        /\ feature_vector state
           = feature_vector (state_or_new (clock 1%nat) self uid))
  /\ (forall v, uid <> v ->
        _store (update_user_events (clock 1%nat) self uid event') !! v
        = _store self !! v).
Proof.
  intros He Hu. split; [|split; [|split]].
  - intros x Hx. unfold process_event, event_user_id.
    by rewrite He, Hu, Hx.
  - intros features Hf. unfold process_event, event_user_id.
    rewrite He, Hu, Hf. by destruct (should_cleanup _ _).
  - eexists. split; [apply update_user_events_lookup|]. simpl.
    split; [apply deque_append_last|reflexivity].
  - intros v Hne. by apply update_user_events_other.
Qed.

End faults.

Lemma process_event_fault_keeps_appended_event_witness :
  streaming_features.process_event Z instance.iso_utc instance.utc_timestamp
    3600 instance.sqrt_approx (instance.frozen 1700000000)
    (state_store.init_default 1700000000)
    (instance.iso_event "u" 10 "9999-12-31T23:59:59Z")
  = (false,
     state_store.update_user_events 1700000000
       (state_store.init_default 1700000000) "u"
       (instance.dated_iso_event "u" 10 "9999-12-31T23:59:59Z"
                                 253402300799))
  /\ (streaming_features.process_event Z instance.iso_utc
        instance.utc_timestamp 3600 instance.sqrt_approx
        (instance.frozen 1700000000)
        (state_store.init_default 1700000000)
        (instance.iso_event "u" 10 "2023-11-14T22:13:20Z")).1 = true.
Proof.
  split.
  - apply (proj1 (process_event_fault_keeps_appended_event
                    Z instance.iso_utc instance.utc_timestamp 3600
                    instance.sqrt_approx (instance.frozen 1700000000)
                    (state_store.init_default 1700000000)
                    (instance.iso_event "u" 10 "9999-12-31T23:59:59Z")
                    (instance.dated_iso_event "u" 10 "9999-12-31T23:59:59Z"
                                              253402300799)
                    "u" ltac:(reflexivity) eq_refl)
             ValueError).
    reflexivity.
  - apply (proj1 (proj2 (process_event_fault_keeps_appended_event
                    Z instance.iso_utc instance.utc_timestamp 3600
                    instance.sqrt_approx (instance.frozen 1700000000)
                    (state_store.init_default 1700000000)
                    (instance.iso_event "u" 10 "2023-11-14T22:13:20Z")
                    (instance.dated_iso_event "u" 10 "2023-11-14T22:13:20Z"
                                              1700000000)
                    "u" ltac:(reflexivity) eq_refl))
             (<["payment_method_consistency" := PFloat (1 # 1)]>
                (<["merchant_diversity" := PFloat (1 # 1)]>
                   (<["time_pattern_score" := PFloat 0]>
                      (<["location_consistency" := PFloat (1 # 1)]>
                         (<["location_anomaly" := PInt 0]>
                            (<["amount_volatility" := PFloat 0]>
                               (<["amount_zscore" := PFloat 0]>
                                  (<["transaction_velocity_1h" := PInt 1]>
                                     ∅))))))))).
    reflexivity.
Defined.

(** * Further properties of the store *)
Section store_more.
Import state_store store_run windowed instance.

Implicit Types (self : StateStore) (state : UserState) (u v : string).

Lemma update_user_features_window now self u f :
  max_window_minutes (update_user_features now self u f)
  = max_window_minutes self.
Proof.
  unfold update_user_features, get_user_state.
  destruct (_store self !! u); reflexivity.
Qed.

Lemma update_user_events_window now self u e :
  max_window_minutes (update_user_events now self u e)
  = max_window_minutes self.
Proof.
  unfold update_user_events, get_user_state.
  destruct (_store self !! u); reflexivity.
Qed.

Lemma get_recent_events_after_update_features now now' self u f v w :
  get_recent_events now' (update_user_features now self u f) v w
  = get_recent_events now' self v w.
Proof.
  unfold get_recent_events. rewrite update_user_features_window.
  destruct (decide (u = v)) as [<-|Hne].
  - rewrite update_user_features_lookup. unfold state_or_new.
    destruct (_store self !! u); reflexivity.
  - by rewrite update_user_features_other.
Qed.

(** X1: [update_user_features] merges per key. A feature read after an
    update returns the new value under every key of the update and the
    previously stored value under every other key; the update changes no
    windowed read and no other user's vector. *)
Theorem feature_update_merges_per_key now now' self u f :
  (get_user_features now' (update_user_features now self u f) u).1
  = f ∪ (get_user_features now self u).1
  /\ (forall k,
        (get_user_features now' (update_user_features now self u f) u).1 !! k
        = match f !! k with
          | Some x => Some x
          | None => (get_user_features now self u).1 !! k
          end)
  /\ (forall now'' v w,
        get_recent_events now'' (update_user_features now self u f) v w
        = get_recent_events now'' self v w)
  /\ (forall v, u <> v ->
        (get_user_features now' (update_user_features now self u f) v).1
        = (get_user_features now' self v).1).
Proof.
  assert (E : (get_user_features now' (update_user_features now self u f) u).1
              = f ∪ (get_user_features now self u).1).
  { rewrite !get_user_features_fst. unfold state_or_new at 1.
    by rewrite update_user_features_lookup. }
  split; [exact E|]. split; [|split].
  - intros k. rewrite E, lookup_union.
    destruct (f !! k), ((get_user_features now self u).1 !! k); reflexivity.
  - intros now'' v w. apply get_recent_events_after_update_features.
  - intros v Hne. rewrite !get_user_features_fst. unfold state_or_new.
    by rewrite update_user_features_other.
Qed.

Lemma users_to_remove_length cutoff (m : gmap string UserState) :
  length (filter (fun p => to_remove cutoff p.2 = true) (map_to_list m)).*1
  = size (filter (fun p : string * UserState =>
                    to_remove cutoff p.2 = true) m).
Proof.
  rewrite length_fmap, map_filter_alt, map_size_list_to_map; [reflexivity|].
  apply (sublist_NoDup _ (map_to_list m).*1).
  - apply NoDup_fst_map_to_list.
  - apply fmap_sublist, sublist_filter.
Qed.

Lemma clear_old_entries_store now self :
  _store (clear_old_entries now self).2
  = sweep_state (reap_cutoff now self)
      <$> filter (fun p : string * UserState =>
                    ~ to_remove (reap_cutoff now self) p.2 = true)
                 (_store self).
Proof.
  apply map_eq. intros u.
  rewrite clear_old_entries_lookup, lookup_fmap, map_lookup_filter.
  destruct (_store self !! u) as [state|]; simpl; [|reflexivity].
  destruct (to_remove _ state) eqn:R.
  - rewrite option_guard_False by (simpl; congruence). reflexivity.
  - rewrite option_guard_True by (simpl; congruence). reflexivity.
Qed.

(** X2: the number returned by [clear_old_entries] is the number of
    entities it deleted; the sweep records its own clock reading in
    [last_cleanup] and leaves the configuration alone, so a later
    [should_cleanup] is true exactly when more than [cleanup_interval]
    seconds have passed since the sweep. *)
Theorem sweep_count_and_timer now self :
  ((clear_old_entries now self).1
   + size (_store (clear_old_entries now self).2)
   = size (_store self))%nat
  /\ last_cleanup (clear_old_entries now self).2 = now
  /\ max_window_minutes (clear_old_entries now self).2
     = max_window_minutes self
  /\ cleanup_interval (clear_old_entries now self).2 = cleanup_interval self
  /\ (forall now',
        should_cleanup now' (clear_old_entries now self).2 = true
        <-> (inject_Z (cleanup_interval self) < now' - now)%Q).
Proof.
  split; [|split; [reflexivity|split; [reflexivity|split; [reflexivity|]]]].
  - rewrite clear_old_entries_store, map_size_fmap.
    change ((clear_old_entries now self).1)
      with (length (filter (fun p => to_remove (reap_cutoff now self) p.2
                                     = true)
                           (map_to_list (_store self))).*1).
    rewrite users_to_remove_length.
    rewrite <- map_size_disj_union
      by apply map_disjoint_filter_complement.
    by rewrite map_filter_union_complement.
  - intros now'. unfold should_cleanup. simpl. apply Qgtb_gt.
Qed.

Lemma popleft_while_split cutoff (d : list Event) :
  exists dropped,
    d = dropped ++ popleft_while cutoff d
    /\ Forall (fun e => (get_timestamp_unix e < cutoff)%Q) dropped
    /\ (forall e, head (popleft_while cutoff d) = Some e ->
                  (cutoff <= get_timestamp_unix e)%Q).
Proof.
  induction d as [|e d (dropped & Hd & Hall & Hhead)]; simpl.
  - exists []. repeat split; [constructor|discriminate].
  - destruct (Qltb (get_timestamp_unix e) cutoff) eqn:E.
    + exists (e :: dropped). split; [simpl; congruence|].
      split; [|exact Hhead]. constructor; [by apply Qltb_lt|exact Hall].
    + exists []. split; [reflexivity|]. split; [constructor|].
      intros e' [= <-]. by apply Qltb_ge.
Qed.

(** X3: what a sweep does to an entity it keeps. The kept history is the
    old one minus a prefix of events older than the cutoff, its first
    event (if any) is not older than the cutoff, and the feature vector
    and both timestamps are untouched. Events behind a fresh event are
    never examined, whatever their age. *)
Theorem sweep_trims_only_an_expired_prefix now self u state' :
  _store (clear_old_entries now self).2 !! u = Some state' ->
  exists state dropped,
    _store self !! u = Some state
    /\ recent_events state = dropped ++ recent_events state'
    /\ Forall (fun e => (get_timestamp_unix e < reap_cutoff now self)%Q)
              dropped
    /\ (forall e, head (recent_events state') = Some e ->
                  (reap_cutoff now self <= get_timestamp_unix e)%Q)
    /\ feature_vector state' = feature_vector state
    /\ last_updated state' = last_updated state
    /\ created_at state' = created_at state.
Proof.
  rewrite clear_old_entries_lookup.
  destruct (_store self !! u) as [state|]; [|discriminate].
  destruct (to_remove _ state) eqn:R; [discriminate|].
  intros [= <-]. unfold sweep_state. rewrite R. simpl.
  destruct (popleft_while_split (reap_cutoff now self) (recent_events state))
    as (dropped & Hd & Hall & Hhead).
  exists state, dropped. repeat split; assumption.
Qed.

End store_more.

Lemma sweep_trims_only_an_expired_prefix_witness :
  exists state dropped,
    state_store._store instance.aged_store !! "u" = Some state
    /\ state_store.recent_events state = dropped ++ []
    /\ Forall (fun e => (get_timestamp_unix e
                         < store_run.reap_cutoff 10000 instance.aged_store)%Q)
              dropped
    /\ (forall e, head (@nil Event) = Some e ->
                  (store_run.reap_cutoff 10000 instance.aged_store
                   <= get_timestamp_unix e)%Q)
    /\ (∅ : gmap string pynum) = state_store.feature_vector state
    /\ 0%Q = state_store.last_updated state
    /\ 0%Q = state_store.created_at state.
Proof.
  apply (sweep_trims_only_an_expired_prefix 10000 instance.aged_store "u"
           {| state_store.recent_events := [];
              state_store.feature_vector := ∅;
              state_store.last_updated := 0;
              state_store.created_at := 0 |}).
  reflexivity.
Defined.

(** ** Statistics, read-back and nesting of windows *)
Section store_reads.
Import state_store store_run windowed instance.

Lemma total_events_bounded self :
  bounded self ->
  (total_events (get_stats self)
   <= maxlen * total_users (get_stats self))%nat.
Proof.
  unfold bounded, get_stats. simpl.
  apply (map_fold_weak_ind
           (fun r (m : gmap string UserState) =>
              map_Forall (fun _ state =>
                            (length (recent_events state) <= maxlen)%nat) m ->
              (r <= maxlen * size m)%nat)).
  - intros _. lia.
  - intros u state m r Hnone IH Hall.
    apply map_Forall_insert in Hall; [|exact Hnone].
    destruct Hall as [Hstate Hm].
    rewrite map_size_insert_None by exact Hnone.
    specialize (IH Hm). lia.
Qed.

(** X4: in every store reached from a new one by any run of store
    operations, the [total_events] reported by [get_stats] is at most
    1000 times [total_users], and it is 0 when there is no user. *)
Theorem stats_total_events_bounded now0 mw ci steps :
  (total_events (get_stats (run_ops (__init__ now0 mw ci) steps))
   <= 1000 * total_users (get_stats (run_ops (__init__ now0 mw ci) steps)))%nat
  /\ (total_users (get_stats (run_ops (__init__ now0 mw ci) steps)) = 0%nat
      -> total_events (get_stats (run_ops (__init__ now0 mw ci) steps))
         = 0%nat).
Proof.
  pose proof (total_events_bounded _
                (bounded_run_ops steps _ (bounded_init now0 mw ci))) as H.
  split; [exact H|]. intros H0. rewrite H0 in H. lia.
Qed.

Lemma deque_append_snoc (d : list Event) e :
  exists d', deque_append d e = d' ++ [e].
Proof.
  unfold deque_append.
  destruct (Nat.ltb_spec maxlen (length (d ++ [e]))) as [Hlt|_].
  - destruct d as [|x d].
    + simpl in Hlt. unfold maxlen in Hlt. lia.
    + exists d. reflexivity.
  - exists d. reflexivity.
Qed.

(** X5: an event read back right after its append. If the event's epoch
    lies inside the window of a read (window size other than 0), the read
    returns it as its last element, whatever the state of the store
    before the append and however full the history was. *)
Theorem appended_event_is_read_back_last now now' self u e minutes :
  minutes <> 0 ->
  (now' - inject_Z (minutes * 60) < get_timestamp_unix e)%Q ->
  last (get_recent_events now' (update_user_events now self u e) u
                          (Some minutes))
  = Some e.
Proof.
  intros Hm Hin.
  rewrite (get_recent_events_known _ _ _ _ _
             (update_user_events_lookup now self u e)).
  simpl. destruct (Z.eqb_spec minutes 0) as [E|_]; [contradiction|].
  destruct (deque_append_snoc (recent_events (state_or_new now self u)) e)
    as [d' ->].
  unfold windowed_spec. rewrite filter_app, filter_cons_True by exact Hin.
  apply last_snoc.
Qed.

(** X6: windows nest. For window sizes other than 0, the read with the
    smaller window is a sub-sequence of the read with the larger one, so
    it is never longer. *)
Theorem narrower_window_reads_subsequence now self u m1 m2 :
  m1 <> 0 -> m2 <> 0 -> m1 <= m2 ->
  get_recent_events now self u (Some m1)
    `sublist_of` get_recent_events now self u (Some m2)
  /\ (length (get_recent_events now self u (Some m1))
      <= length (get_recent_events now self u (Some m2)))%nat.
Proof.
  intros H1 H2 Hle.
  assert (Hsub : get_recent_events now self u (Some m1)
                   `sublist_of` get_recent_events now self u (Some m2)).
  { destruct (_store self !! u) as [state|] eqn:Hl.
    - rewrite !(get_recent_events_known _ _ _ _ _ Hl). simpl.
      destruct (Z.eqb_spec m1 0) as [E|_]; [contradiction|].
      destruct (Z.eqb_spec m2 0) as [E|_]; [contradiction|].
      unfold windowed_spec.
      rewrite <- (list_filter_filter_l
                    (fun e => (now - inject_Z (m1 * 60) < timestampEpoch e)%Q)
                    (fun e => (now - inject_Z (m2 * 60) < timestampEpoch e)%Q)).
      + apply sublist_filter.
      + intros e He.
        assert (Hq : (inject_Z (m1 * 60) <= inject_Z (m2 * 60))%Q).
        { rewrite <- Zle_Qle. lia. }
        lra.
    - unfold get_recent_events. rewrite Hl. constructor. }
  split; [exact Hsub|]. by apply sublist_length.
Qed.

End store_reads.

Lemma appended_event_is_read_back_last_witness :
  last (state_store.get_recent_events 1700000000
          (state_store.update_user_events 1700000000 instance.full_store "u"
             (instance.sample_event "u" 10 1699999990))
          "u" (Some 60%Z))
  = Some (instance.sample_event "u" 10 1699999990).
Proof.
  apply (appended_event_is_read_back_last 1700000000 1700000000
           instance.full_store "u"
           (instance.sample_event "u" 10 1699999990) 60%Z).
  - discriminate.
  - reflexivity.
Defined.

Lemma narrower_window_reads_subsequence_witness :
  state_store.get_recent_events 1700000000 instance.recent_store "u" (Some 60%Z)
    `sublist_of`
    state_store.get_recent_events 1700000000 instance.recent_store "u"
      (Some 1440%Z)
  /\ (length (state_store.get_recent_events 1700000000 instance.recent_store
                "u" (Some 60%Z))
      <= length (state_store.get_recent_events 1700000000
                   instance.recent_store "u" (Some 1440%Z)))%nat.
Proof.
  apply (narrower_window_reads_subsequence 1700000000 instance.recent_store
           "u" 60%Z 1440%Z); [discriminate|discriminate|].
  intros H. discriminate H.
Defined.

(** * Further properties of the calculators *)

(** ** Frequency tables *)
Section counting.
Import pystats.
Context `{Countable K}.

Lemma filter_eq_absent (l : list K) (k : K) :
  k ∉ l -> filter (fun x => x = k) l = [].
Proof.
  induction l as [|x l IH]; intros Hnin; [reflexivity|].
  rewrite filter_cons_False.
  - apply IH. intros Hin. apply Hnin. by apply list_elem_of_further.
  - intros ->. apply Hnin. apply list_elem_of_here.
Qed.

Lemma count_step_lookup (counts : gmap K Z) (l : list K) (k : K) :
  foldl (fun counts k => <[k := default 0 (counts !! k) + 1]> counts)
        counts l !! k
  = if decide (k ∈ l)
    then Some (default 0 (counts !! k)
               + Z.of_nat (length (filter (fun x => x = k) l)))
    else counts !! k.
Proof.
  revert counts. induction l as [|x l IH]; intros counts; cbn [foldl].
  - destruct (decide (k ∈ [])) as [Hin|_]; [|reflexivity].
    by apply not_elem_of_nil in Hin.
  - rewrite IH. destruct (decide (x = k)) as [->|Hne].
    + rewrite filter_cons_True by reflexivity.
      rewrite lookup_insert_eq. simpl.
      rewrite (decide_True (P := k ∈ k :: l)) by apply list_elem_of_here.
      destruct (decide (k ∈ l)) as [Hin|Hnin].
      * f_equal. lia.
      * f_equal. rewrite (filter_eq_absent l k Hnin). simpl. lia.
    + rewrite filter_cons_False by exact Hne.
      rewrite lookup_insert_ne by exact Hne.
      destruct (decide (k ∈ l)) as [Hin|Hnin].
      * rewrite decide_True by (by apply list_elem_of_further).
        reflexivity.
      * rewrite decide_False; [reflexivity|].
        intros [E|Hin]%elem_of_cons; [by subst|contradiction].
Qed.

(** The table holds, under each item of the list, the number of its
    occurrences, and nothing else. *)
Lemma count_values_lookup (l : list K) (k : K) :
  count_values l !! k
  = if decide (k ∈ l)
    then Some (Z.of_nat (length (filter (fun x => x = k) l)))
    else None.
Proof.
  unfold count_values. rewrite count_step_lookup, lookup_empty. reflexivity.
Qed.

Lemma count_values_range (l : list K) (k : K) (v : Z) :
  count_values l !! k = Some v -> 1 <= v <= Z.of_nat (length l).
Proof.
  rewrite count_values_lookup.
  destruct (decide (k ∈ l)) as [Hin|]; [|discriminate].
  intros [= <-]. split.
  - destruct (filter (fun x => x = k) l) eqn:E; simpl; [|lia].
    exfalso. by apply (filter_nil_not_elem_of _ l k E).
  - pose proof (length_filter (fun x => x = k) l). lia.
Qed.

Lemma count_values_get_range (l : list K) (k : K) :
  0 <= default 0 (count_values l !! k) <= Z.of_nat (length l).
Proof.
  destruct (count_values l !! k) as [v|] eqn:E; simpl.
  - apply count_values_range in E. lia.
  - lia.
Qed.

Lemma foldr_max_range (lo hi v : Z) (vs : list Z) :
  lo <= v <= hi -> Forall (fun x => lo <= x <= hi) vs ->
  lo <= foldr Z.max v vs <= hi.
Proof. intros Hv. induction 1; simpl; lia. Qed.

(** On the table of a non-empty list, [max] of the values is defined and
    lies between 1 and the length of the list. *)
Lemma max_values_count_values (l : list K) :
  l <> [] ->
  exists p, max_values (count_values l) = Ok p
            /\ 1 <= p <= Z.of_nat (length l).
Proof.
  intros Hl. unfold max_values.
  assert (Hall : Forall (fun x => 1 <= x <= Z.of_nat (length l))
                        (map_to_list (count_values l)).*2).
  { apply Forall_forall. intros v [[k v'] [-> Hin]]%list_elem_of_fmap.
    apply elem_of_map_to_list in Hin. simpl.
    by apply (count_values_range l k). }
  destruct ((map_to_list (count_values l)).*2) as [|v vs] eqn:E.
  - exfalso. apply fmap_nil_inv in E. apply map_to_list_empty_iff in E.
    destruct l as [|x l]; [contradiction|].
    assert (Hx : count_values (x :: l) !! x = None) by (by rewrite E).
    rewrite count_values_lookup in Hx.
    rewrite decide_True in Hx by apply list_elem_of_here. discriminate.
  - inversion Hall as [|? ? Hv Hvs]; subst.
    eexists. split; [reflexivity|]. by apply foldr_max_range.
Qed.

Lemma count_values_nonempty (l : list K) :
  l <> [] -> count_values l <> ∅.
Proof.
  intros Hl E. destruct l as [|x l]; [contradiction|].
  assert (Hx : count_values (x :: l) !! x = None) by (by rewrite E).
  rewrite count_values_lookup in Hx.
  rewrite decide_True in Hx by apply list_elem_of_here. discriminate.
Qed.

End counting.

(** ** Ratios of counts *)

Lemma Zratio_nonzero (t : Z) : 0 < t -> ~ (inject_Z t == 0)%Q.
Proof.
  intros Ht E. unfold Qeq, inject_Z in E. simpl in E. lia.
Qed.

Lemma Zratio_range (p t : Z) :
  0 <= p <= t -> 0 < t ->
  (0 <= inject_Z p / inject_Z t)%Q /\ (inject_Z p / inject_Z t <= 1)%Q.
Proof.
  intros Hp Ht. destruct t as [|tp|tp]; try lia.
  unfold Qdiv, Qinv, Qmult, Qle, inject_Z. simpl. split; lia.
Qed.

Lemma Zratio_pos (p t : Z) :
  1 <= p -> 0 < t -> (0 < inject_Z p / inject_Z t)%Q.
Proof.
  intros Hp Ht. destruct t as [|tp|tp]; try lia.
  unfold Qdiv, Qinv, Qmult, Qlt, inject_Z. simpl. lia.
Qed.

Lemma Zratio_le_tenth (a t : Z) :
  0 < t -> (inject_Z a / inject_Z t <= 1 # 10)%Q <-> 10 * a <= t.
Proof.
  intros Ht. destruct t as [|tp|tp]; try lia.
  unfold Qdiv, Qinv, Qmult, Qle, inject_Z. simpl. split; lia.
Qed.

Lemma Zratio_self (t : Z) : 0 < t -> (inject_Z t / inject_Z t == 1)%Q.
Proof.
  intros Ht. destruct t as [|tp|tp]; try lia.
  unfold Qdiv, Qinv, Qmult, Qeq, inject_Z. simpl. lia.
Qed.

Lemma truthy_str_nonempty (o : option string) (s : string) :
  truthy_str o = Some s -> o = Some s /\ s <> "".
Proof.
  destruct o as [s'|]; simpl; [|discriminate].
  destruct (String.eqb_spec s' ""); [discriminate|].
  intros [= <-]. by split.
Qed.

Lemma length_omap_le {A B} (f : A -> option B) (l : list A) :
  (length (omap f l) <= length l)%nat.
Proof.
  induction l as [|x l IH]; csimpl; [lia|].
  destruct (f x); csimpl; lia.
Qed.

(** ** Location features *)
Section location.
Import pystats streaming_features slice_terms instance.

Lemma count_values_get `{Countable K} (l : list K) (k : K) :
  default 0 (count_values l !! k) = occurrences k l.
Proof.
  unfold occurrences. rewrite count_values_lookup.
  destruct (decide (k ∈ l)) as [|Hnin]; simpl; [reflexivity|].
  by rewrite (filter_eq_absent l k Hnin).
Qed.

(** The value [_calculate_location_features] returns, by cases on the
    presence of a location in the slice. *)
Lemma location_features_value (events : list Event) :
  (located events = [] ->
   _calculate_location_features events
   = Ok (location_features (PInt 0) (PFloat 1)))
  /\ (located events <> [] ->
      exists p,
        1 <= p <= Z.of_nat (length (located events))
        /\ _calculate_location_features events
           = Ok (location_features
                   (PInt (if Qleb (inject_Z (occurrences
                                               (latest_location events)
                                               (located events))
                                   / inject_Z (Z.of_nat
                                                 (length (located events))))
                                  (1 # 10)
                             && (5 <? Z.of_nat (length (located events)))
                          then 1 else 0))
                   (PFloat (inject_Z p
                            / inject_Z (Z.of_nat
                                          (length (located events))))))).
Proof.
  unfold _calculate_location_features.
  fold (latest_location events). fold (located events).
  split.
  - intros ->. reflexivity.
  - intros Hne. destruct (located events) as [|x l] eqn:El; [contradiction|].
    set (n := Z.of_nat (length (x :: l))).
    assert (Hn : 0 < n) by (unfold n; simpl; lia).
    rewrite count_values_get.
    rewrite (pydiv_ok (inject_Z (occurrences (latest_location events)
                                             (x :: l)))
                      (inject_Z n)) by (by apply Zratio_nonzero).
    unfold mbind at 1, result_bind at 1.
    rewrite decide_False by (by apply count_values_nonempty).
    destruct (max_values_count_values (x :: l)) as (p & Hp & Hrange);
      [discriminate|].
    rewrite Hp. unfold mbind at 1, result_bind at 1.
    rewrite (proj2 (Z.ltb_lt 0 n) Hn).
    rewrite (pydiv_ok (inject_Z p) (inject_Z n)) by (by apply Zratio_nonzero).
    exists p. split; [exact Hrange|reflexivity].
Qed.

Lemma latest_location_absent (events : list Event) :
  (forall e, last events = Some e -> truthy_str (location e) = None) ->
  occurrences (latest_location events) (located events) = 0.
Proof.
  intros Hlast. unfold occurrences.
  rewrite filter_eq_absent; [reflexivity|].
  intros Hin. apply list_elem_of_omap in Hin as (e' & _ & He').
  apply truthy_str_nonempty in He' as [_ Hne].
  unfold latest_location in Hne. destruct (last events) as [e|] eqn:El.
  - specialize (Hlast e eq_refl).
    destruct (location e) as [s|]; simpl in *; [|by apply Hne].
    destruct (String.eqb_spec s ""); [by apply Hne|discriminate].
  - by apply Hne.
Qed.

(** X7: [_calculate_location_features] raises nothing on any slice. With
    [n] the number of events that carry a non-empty location and [rc] the
    number of those at the latest event's location, the anomaly flag is 1
    exactly when [10 * rc <= n] and [n > 5], and 0 otherwise; the
    consistency lies in (0, 1]. When the latest event carries no location
    (missing or empty), [rc] is 0, so the flag is 1 as soon as more than
    five events of the slice carry one. *)
Theorem location_features_rule (events : list Event) :
  exists anomaly consistency,
    _calculate_location_features events
    = Ok (location_features (PInt anomaly) (PFloat consistency))
    /\ (anomaly = 0 \/ anomaly = 1)
    /\ (anomaly = 1 <->
        10 * occurrences (latest_location events) (located events)
        <= Z.of_nat (length (located events))
        /\ 5 < Z.of_nat (length (located events)))
    /\ (0 < consistency)%Q /\ (consistency <= 1)%Q
    /\ ((forall e, last events = Some e -> truthy_str (location e) = None) ->
        (anomaly = 1 <-> 5 < Z.of_nat (length (located events)))).
Proof.
  destruct (location_features_value events) as [Hnone Hsome].
  destruct (located events) as [|x l] eqn:El.
  - exists 0, 1%Q. split; [by apply Hnone|]. split; [by left|].
    split; [simpl; lia|]. split; [reflexivity|]. split; [discriminate|].
    intros _. simpl. lia.
  - destruct Hsome as (p & Hp & Hcalc); [discriminate|].
    set (n := Z.of_nat (length (x :: l))) in *.
    set (rc := occurrences (latest_location events) (x :: l)) in *.
    assert (Hn : 0 < n) by (unfold n; simpl; lia).
    eexists _, _. split; [exact Hcalc|].
    assert (Hrule :
              (if Qleb (inject_Z rc / inject_Z n) (1 # 10) && (5 <? n)
               then 1 else 0) = 1
              <-> 10 * rc <= n /\ 5 < n).
    { destruct (Qleb (inject_Z rc / inject_Z n) (1 # 10)) eqn:Hq;
        destruct (Z.ltb_spec 5 n) as [H5|H5]; simpl.
      - apply Qle_bool_iff, Zratio_le_tenth in Hq; [|exact Hn].
        split; [intros _; by split|reflexivity].
      - split; [discriminate|lia].
      - split; [discriminate|]. intros [Hc _]. exfalso.
        apply (Zratio_le_tenth rc n Hn) in Hc.
        apply Qle_bool_iff in Hc. unfold Qleb in Hq. congruence.
      - split; [discriminate|lia]. }
    split; [|split; [exact Hrule|]].
    + destruct (Qleb _ _ && _); [by right|by left].
    + split; [apply Zratio_pos; lia|].
      split; [apply Zratio_range; lia|].
      intros Hlast. rewrite Hrule. unfold rc.
      rewrite <- El, (latest_location_absent events Hlast). lia.
Qed.

End location.

(** ** Behavioural features *)
Section behavioural.
Import pystats streaming_features slice_terms instance.

Lemma size_list_to_set_le (l : list string) :
  (size (list_to_set l : gset string) <= length l)%nat.
Proof.
  induction l as [|x l IH].
  - rewrite list_to_set_nil, size_empty. simpl. lia.
  - rewrite list_to_set_cons, size_union_alt, size_singleton. simpl.
    assert ((size (list_to_set l ∖ {[x]} : gset string)
             <= size (list_to_set l : gset string))%nat).
    { apply subseteq_size. intros y Hy.
      by apply elem_of_difference in Hy as [Hy _]. }
    lia.
Qed.

(** [len(set(merchants)) if merchants else 0] *)
Lemma unique_merchants_value (merchants : list string) :
  match merchants with
  | [] => 0
  | _ :: _ => Z.of_nat (size (list_to_set merchants : gset string))
  end = Z.of_nat (size (list_to_set merchants : gset string)).
Proof.
  destruct merchants; [|reflexivity].
  by rewrite list_to_set_nil, size_empty.
Qed.

(** The value [_calculate_behavioral_features] returns. *)
Lemma behavioral_features_value (events : list Event) :
  exists consistency,
    _calculate_behavioral_features events
    = Ok (behavioral_features
            (if 0 <? Z.of_nat (length events)
             then PFloat (inject_Z (Z.of_nat
                                      (size (list_to_set (merchants_of events)
                                             : gset string)))
                          / inject_Z (Z.of_nat (length events)))
             else PInt 0)
            (PFloat consistency))
    /\ (payment_methods_of events = [] -> consistency = 1%Q)
    /\ (payment_methods_of events <> [] ->
        exists p,
          1 <= p <= Z.of_nat (length (payment_methods_of events))
          /\ consistency
             = (inject_Z p
                / inject_Z (Z.of_nat (length (payment_methods_of events))))%Q).
Proof.
  unfold _calculate_behavioral_features.
  fold (merchants_of events). fold (payment_methods_of events).
  rewrite unique_merchants_value.
  set (uniq := Z.of_nat (size (list_to_set (merchants_of events)
                               : gset string))).
  set (n := Z.of_nat (length events)).
  assert (Hdiv :
            (if 0 <? n
             then q ← pydiv (inject_Z uniq) (inject_Z n); Ok (PFloat q)
             else Ok (PInt 0))
            = Ok (if 0 <? n then PFloat (inject_Z uniq / inject_Z n)
                  else PInt 0)).
  { destruct (Z.ltb_spec 0 n) as [Hn|Hn]; [|reflexivity].
    by rewrite pydiv_ok by (by apply Zratio_nonzero). }
  rewrite Hdiv. unfold mbind at 1, result_bind at 1.
  destruct (payment_methods_of events) as [|x l] eqn:Em.
  - exists 1%Q. split; [reflexivity|]. split; [done|]. by intros [].
  - destruct (max_values_count_values (x :: l)) as (p & Hp & Hrange);
      [discriminate|].
    rewrite Hp. unfold mbind at 2, result_bind at 2. unfold Qlen.
    rewrite pydiv_ok by (apply Zratio_nonzero; simpl; lia).
    eexists. split; [reflexivity|]. split; [discriminate|].
    intros _. exists p. by split.
Qed.

(** X8: [_calculate_behavioral_features] raises nothing on any slice.
    The merchant diversity is the integer 0 on an empty slice and
    otherwise a ratio in [0, 1]; it equals 1 when every event carries a
    non-empty merchant and no merchant occurs twice. The payment method
    consistency lies in (0, 1]. *)
Theorem behavioral_features_bounded (events : list Event) :
  exists diversity consistency,
    _calculate_behavioral_features events
    = Ok (behavioral_features diversity (PFloat consistency))
    /\ (events = [] -> diversity = PInt 0)
    /\ (events <> [] ->
        exists q, diversity = PFloat q /\ (0 <= q)%Q /\ (q <= 1)%Q
                  /\ (NoDup (merchants_of events)
                      -> length (merchants_of events) = length events
                      -> (q == 1)%Q))
    /\ (0 < consistency)%Q /\ (consistency <= 1)%Q.
Proof.
  destruct (behavioral_features_value events) as (c & Hcalc & Hnone & Hsome).
  eexists _, c. split; [exact Hcalc|].
  set (uniq := Z.of_nat (size (list_to_set (merchants_of events)
                               : gset string))).
  set (n := Z.of_nat (length events)).
  assert (Huniq : 0 <= uniq <= n).
  { unfold uniq, n. pose proof (size_list_to_set_le (merchants_of events))
      as Hs.
    pose proof (length_omap_le (fun e => truthy_str (merchant e)) events)
      as Hm.
    fold (merchants_of events) in Hm. lia. }
  split; [by intros ->|]. split.
  - intros Hne.
    assert (Hn : 0 < n) by (unfold n; destruct events; [done|simpl; lia]).
    rewrite (proj2 (Z.ltb_lt 0 n) Hn).
    eexists. split; [reflexivity|].
    split; [apply Zratio_range; lia|]. split; [apply Zratio_range; lia|].
    intros Hnd Hlen.
    assert (E : uniq = n).
    { unfold uniq, n. by rewrite size_list_to_set, Hlen. }
    rewrite E. by apply Zratio_self.
  - destruct (payment_methods_of events) as [|x l] eqn:Em.
    + rewrite Hnone by reflexivity. split; [reflexivity|apply Qle_refl].
    + destruct Hsome as (p & Hp & ->); [discriminate|].
      assert (0 < Z.of_nat (length (x :: l))) by (simpl; lia).
      split; [apply Zratio_pos; lia|apply Zratio_range; lia].
Qed.

End behavioural.

(** ** Time features *)
Section time_pattern_score.
Import time_utils pystats streaming_features slice_terms instance.

Variable utc_offset : Z.

Lemma match_snoc {A B} (l : list A) (x : A) (a b : B) :
  match l ++ [x] with
  | [] => a
  | _ :: _ => b
  end = b.
Proof. destruct l; reflexivity. Qed.

Lemma occurrences_all (l : list Z) (k : Z) :
  Forall (fun x => x = k) l -> occurrences k l = Z.of_nat (length l).
Proof.
  unfold occurrences. induction 1 as [|x l Hx _ IH]; [reflexivity|].
  rewrite filter_cons_True by exact Hx. simpl. lia.
Qed.

Lemma occurrences_range {A} `{EqDecision A} (l : list A) (k : A) :
  0 <= occurrences k l <= Z.of_nat (length l).
Proof.
  unfold occurrences.
  pose proof (length_filter (fun x => x = k) l). lia.
Qed.

Lemma pattern_score_range (hc wc th : Z) :
  0 <= hc <= th -> 0 <= wc <= th -> 0 < th ->
  (0 <= 1 - (inject_Z hc / inject_Z th + inject_Z wc / inject_Z th) / 2)%Q
  /\ (1 - (inject_Z hc / inject_Z th + inject_Z wc / inject_Z th) / 2 <= 1)%Q.
Proof.
  intros Hh Hw Ht.
  destruct (Zratio_range hc th Hh Ht) as [Hh0 Hh1].
  destruct (Zratio_range wc th Hw Ht) as [Hw0 Hw1].
  revert Hh0 Hh1 Hw0 Hw1.
  generalize (inject_Z hc / inject_Z th)%Q (inject_Z wc / inject_Z th)%Q.
  intros a b Ha0 Ha1 Hb0 Hb1.
  unfold Qdiv. change (/ 2)%Q with (1 # 2)%Q. split; lra.
Qed.

(** An exception of the conversion loop leaves the calculator as it
    is. *)
Lemma time_features_raise (events : list Event) x :
  events <> [] ->
  result_mapM (get_time_features utc_offset) (positive_stamps events)
  = Raise x ->
  _calculate_time_features utc_offset events = Raise x.
Proof.
  intros Hne Hx. unfold _calculate_time_features.
  fold (positive_stamps events).
  destruct events; [contradiction|]. by rewrite Hx.
Qed.

(** The value [_calculate_time_features] returns when every positive
    epoch converts: 0 with at most one converted point, and otherwise one
    minus the mean of the two frequencies of the latest point among the
    earlier ones. *)
Lemma time_features_value (events : list Event) tfs :
  result_mapM (get_time_features utc_offset) (positive_stamps events)
  = Ok tfs ->
  ((length tfs <= 1)%nat ->
   _calculate_time_features utc_offset events = Ok (time_pattern 0))
  /\ (forall init t,
        tfs = init ++ [t] -> init <> [] ->
        _calculate_time_features utc_offset events
        = Ok (time_pattern
                (1 - (inject_Z (occurrences (hour_of_day t)
                                            (map hour_of_day init))
                      / inject_Z (Z.of_nat (length init))
                      + inject_Z (occurrences (day_of_week t)
                                              (map day_of_week init))
                        / inject_Z (Z.of_nat (length init))) / 2)%Q)).
Proof.
  intros Htfs. unfold _calculate_time_features.
  fold (positive_stamps events).
  destruct events as [|e0 events'].
  { simpl in Htfs. injection Htfs as <-. split; [done|].
    intros init t E. by destruct init. }
  rewrite Htfs. unfold mbind at 1, result_bind at 1.
  split.
  - intros Hlen. destruct tfs as [|t [|t' tfs']]; [reflexivity| |simpl in Hlen; lia].
    reflexivity.
  - intros init t -> Hinit. unfold mbind at 1, result_bind at 1.
    rewrite !map_app. simpl map.
    rewrite (match_snoc (map hour_of_day init) (hour_of_day t)).
    unfold last_item at 1. rewrite last_snoc.
    unfold mbind at 1, result_bind at 1.
    rewrite (match_snoc (map day_of_week init) (day_of_week t)).
    unfold last_item at 1. rewrite last_snoc.
    unfold mbind at 1, result_bind at 1.
    rewrite !removelast_last, length_app, !length_map. simpl length.
    replace (Z.of_nat (length init + 1) - 1) with (Z.of_nat (length init))
      by lia.
    assert (Hlen : (0 < length init)%nat)
      by (destruct init; [contradiction|simpl; lia]).
    rewrite (proj2 (Nat.ltb_lt 1 (length init + 1)) ltac:(lia)).
    rewrite (proj2 (Z.ltb_lt 0 (Z.of_nat (length init))) ltac:(lia)).
    rewrite !count_values_get.
    rewrite (pydiv_ok (inject_Z (occurrences (hour_of_day t)
                                             (map hour_of_day init))))
      by (apply Zratio_nonzero; lia).
    unfold mbind at 1, result_bind at 1.
    rewrite (pydiv_ok (inject_Z (occurrences (day_of_week t)
                                             (map day_of_week init))))
      by (apply Zratio_nonzero; lia).
    reflexivity.
Qed.

(** X9: [_calculate_time_features] can raise only what
    [get_time_features] raises on one of the positive epochs of the
    slice. When all of them convert, the score is defined and lies in
    [0, 1]; it is 0 when at most one event has a positive epoch, and 0
    when every event falls in the same hour of day and on the same
    weekday. *)
Theorem time_pattern_score_bounded (events : list Event) :
  (forall x,
     events <> [] ->
     result_mapM (get_time_features utc_offset) (positive_stamps events)
     = Raise x ->
     _calculate_time_features utc_offset events = Raise x)
  /\ (forall tfs,
        result_mapM (get_time_features utc_offset) (positive_stamps events)
        = Ok tfs ->
        exists score,
          _calculate_time_features utc_offset events = Ok (time_pattern score)
          /\ (0 <= score)%Q /\ (score <= 1)%Q
          /\ ((length tfs <= 1)%nat -> score = 0%Q)
          /\ (forall h w,
                (2 <= length tfs)%nat ->
                Forall (fun tf => hour_of_day tf = h /\ day_of_week tf = w)
                       tfs ->
                (score == 0)%Q)).
Proof.
  split.
  - intros x Hne Hx. by apply time_features_raise.
  - intros tfs Htfs.
    destruct (time_features_value events tfs Htfs) as [Hfew Hmany].
    destruct tfs as [|t init] using rev_ind.
    { exists 0%Q. split; [apply Hfew; simpl; lia|].
      split; [apply Qle_refl|]. split; [discriminate|].
      split; [reflexivity|simpl; lia]. }
    clear IHinit. destruct init as [|t0 init'] eqn:Einit.
    { exists 0%Q. split; [apply Hfew; simpl; lia|].
      split; [apply Qle_refl|]. split; [discriminate|].
      split; [reflexivity|simpl; lia]. }
    rewrite <- Einit in *.
    assert (Hinit : init <> []) by (by rewrite Einit).
    assert (Hpos : 0 < Z.of_nat (length init))
      by (rewrite Einit; simpl; lia).
    eexists. split; [apply (Hmany init t eq_refl Hinit)|].
    pose proof (occurrences_range (map hour_of_day init) (hour_of_day t))
      as Hhc.
    pose proof (occurrences_range (map day_of_week init) (day_of_week t))
      as Hwc.
    rewrite length_map in Hhc, Hwc.
    destruct (pattern_score_range _ _ _ Hhc Hwc Hpos) as [H0 H1].
    split; [exact H0|]. split; [exact H1|].
    split; [rewrite length_app; simpl; lia|].
    intros h w _ Hall. apply Forall_app in Hall as [Hall Ht].
    apply Forall_singleton in Ht as [Hh Hw].
    rewrite !occurrences_all, !length_map.
    + rewrite (Zratio_self _ Hpos). reflexivity.
    + apply Forall_fmap. eapply Forall_impl; [exact Hall|].
      simpl. intros tf [_ ->]. by rewrite Hw.
    + apply Forall_fmap. eapply Forall_impl; [exact Hall|].
      simpl. intros tf [-> _]. by rewrite Hh.
Qed.

End time_pattern_score.

(** ** The whole feature vector *)
Section whole_vector.
Import time_utils state_store store_run pystats streaming_features.
Import slice_terms instance.

Variable utc_offset : Z.
Variable sqrt : Q -> Q.

(** Every mapping a calculator returns is built from its own two keys
    (one key for the time features). *)
Lemma amount_features_shape (events : list Event) new :
  _calculate_amount_features sqrt events = Ok new ->
  exists zscore volatility, new = amount_features zscore volatility.
Proof.
  unfold _calculate_amount_features.
  destruct (_ <? 2)%nat; [intros [= <-]; eauto|].
  unfold mbind, result_bind.
  destruct (last_item _) as [recent|]; [|discriminate].
  destruct (removelast _) as [|a historical]; [intros [= <-]; eauto|].
  destruct (mean _) as [m|]; [|discriminate].
  destruct (std_amount _ _ _) as [std|]; [|discriminate].
  destruct (pydiv _ _) as [zscore|]; [|discriminate].
  destruct (Qgtb _ _).
  - destruct (pydiv _ _) as [q|]; [|discriminate]. intros [= <-]; eauto.
  - intros [= <-]; eauto.
Qed.

Lemma location_features_shape (events : list Event) new :
  _calculate_location_features events = Ok new ->
  exists anomaly consistency, new = location_features anomaly consistency.
Proof.
  destruct (location_features_value events) as [Hnone Hsome].
  destruct (located events) as [|x l].
  - rewrite Hnone by reflexivity. intros [= <-]; eauto.
  - destruct Hsome as (p & _ & ->); [discriminate|]. intros [= <-]; eauto.
Qed.

Lemma time_features_shape (events : list Event) new :
  _calculate_time_features utc_offset events = Ok new ->
  exists score, new = time_pattern score.
Proof.
  destruct events as [|e events']; [intros [= <-]; eauto|].
  set (events := e :: events').
  destruct (result_mapM (get_time_features utc_offset)
              (positive_stamps events)) as [tfs|x] eqn:Hm.
  - destruct (time_features_value utc_offset events tfs Hm) as [Hfew Hmany].
    destruct tfs as [|t init] using rev_ind.
    { rewrite Hfew by (simpl; lia). intros [= <-]; eauto. }
    destruct init as [|t0 init'].
    { rewrite Hfew by (simpl; lia). intros [= <-]; eauto. }
    rewrite (Hmany (t0 :: init') t eq_refl) by discriminate.
    intros [= <-]; eauto.
  - rewrite (time_features_raise utc_offset events x) by done.
    discriminate.
Qed.

Lemma behavioral_features_shape (events : list Event) new :
  _calculate_behavioral_features events = Ok new ->
  exists diversity consistency,
    new = behavioral_features diversity consistency.
Proof.
  destruct (behavioral_features_value events) as (c & -> & _).
  intros [= <-]; eauto.
Qed.

(** [features.update(new)] leaves a key that [new] does not hold. *)
Lemma update_if_any_preserves (events : list Event)
    (calc : list Event -> result (gmap string pynum))
    (features features' : gmap string pynum) (k : string) :
  (forall new, calc events = Ok new -> new !! k = None) ->
  update_if_any events calc features = Ok features' ->
  features' !! k = features !! k.
Proof.
  intros Hcalc. unfold update_if_any. destruct events as [|e events].
  - by intros [= <-].
  - unfold mbind, result_bind.
    destruct (calc (e :: events)) as [new|] eqn:E; [|discriminate].
    intros [= <-]. apply lookup_union_r. by apply Hcalc.
Qed.

Lemma calculate_features_velocity clock self u features :
  _calculate_features utc_offset sqrt clock self u = Ok features ->
  features !! "transaction_velocity_1h"
  = Some (PInt (Z.of_nat
                  (length (get_recent_events (clock 2%nat) self u
                                             (Some 60))))).
Proof.
  unfold _calculate_features.
  set (day := get_recent_events (clock 3%nat) self u (Some 1440)).
  set (week := get_recent_events (clock 4%nat) self u (Some 10080)).
  unfold mbind at 1, result_bind at 1.
  destruct (update_if_any day _ _) as [f1|] eqn:E1; [|discriminate].
  unfold mbind at 1, result_bind at 1.
  destruct (update_if_any week _calculate_location_features f1)
    as [f2|] eqn:E2; [|discriminate].
  unfold mbind at 1, result_bind at 1.
  destruct (update_if_any week (_calculate_time_features utc_offset) f2)
    as [f3|] eqn:E3; [|discriminate].
  intros E4.
  rewrite (update_if_any_preserves _ _ _ _ "transaction_velocity_1h"
             ltac:(intros new [? [? ->]]%behavioral_features_shape;
                   reflexivity) E4).
  rewrite (update_if_any_preserves _ _ _ _ "transaction_velocity_1h"
             ltac:(intros new [? ->]%time_features_shape; reflexivity) E3).
  rewrite (update_if_any_preserves _ _ _ _ "transaction_velocity_1h"
             ltac:(intros new [? [? ->]]%location_features_shape;
                   reflexivity) E2).
  rewrite (update_if_any_preserves _ _ _ _ "transaction_velocity_1h"
             ltac:(intros new [? [? ->]]%amount_features_shape;
                   reflexivity) E1).
  apply lookup_insert_eq.
Qed.

(** X11: every vector [_calculate_features] returns carries
    [transaction_velocity_1h], equal to the number of events of the
    one-hour read, which no calculator overwrites. When the one-day and
    the one-week reads are empty no calculator runs and the vector holds
    the velocity alone; for an id the store does not hold that vector is
    the velocity 0. *)
Theorem calculated_vector_carries_velocity clock self u :
  (forall features,
     _calculate_features utc_offset sqrt clock self u = Ok features ->
     features !! "transaction_velocity_1h"
     = Some (PInt (Z.of_nat
                     (length (get_recent_events (clock 2%nat) self u
                                                (Some 60))))))
  /\ (get_recent_events (clock 3%nat) self u (Some 1440) = [] ->
      get_recent_events (clock 4%nat) self u (Some 10080) = [] ->
      _calculate_features utc_offset sqrt clock self u
      = Ok (<["transaction_velocity_1h" :=
                PInt (Z.of_nat
                        (length (get_recent_events (clock 2%nat) self u
                                                   (Some 60))))]> ∅))
  /\ (_store self !! u = None ->
      _calculate_features utc_offset sqrt clock self u
      = Ok (<["transaction_velocity_1h" := PInt 0]> ∅)).
Proof.
  split; [|split].
  - apply calculate_features_velocity.
  - intros Hday Hweek. unfold _calculate_features.
    by rewrite Hday, Hweek.
  - intros Hl. unfold _calculate_features, get_recent_events.
    by rewrite Hl.
Qed.

End whole_vector.

(** ** Default filling and the outcome of a successful call *)
Section filled_vector.
Import time_utils state_store store_run pystats streaming_features.
Import slice_terms instance.

Lemma fill_step_union (m : gmap string pynum) (kv : string * pynum) :
  match m !! kv.1 with
  | Some _ => m
  | None => <[kv.1 := kv.2]> m
  end = m ∪ {[kv.1 := kv.2]}.
Proof.
  destruct (m !! kv.1) as [x|] eqn:E.
  - apply map_eq. intros j. rewrite lookup_union.
    destruct (decide (j = kv.1)) as [->|Hne].
    + by rewrite E, lookup_singleton_eq.
    + rewrite lookup_singleton_ne by done. by destruct (m !! j).
  - by apply insert_union_singleton_r.
Qed.

Lemma fill_foldl_union (l : list (string * pynum)) (m : gmap string pynum) :
  foldl (fun features kv =>
           match features !! kv.1 with
           | Some _ => features
           | None => <[kv.1 := kv.2]> features
           end) m l
  = m ∪ foldl (fun features kv =>
                 match features !! kv.1 with
                 | Some _ => features
                 | None => <[kv.1 := kv.2]> features
                 end) ∅ l.
Proof.
  revert m. induction l as [|kv l IH]; intros m; cbn [foldl].
  - by rewrite (right_id_L ∅ (∪)).
  - rewrite IH, (IH (match ∅ !! kv.1 with
                     | Some _ => ∅
                     | None => <[kv.1 := kv.2]> ∅
                     end)).
    rewrite !fill_step_union, (left_id_L ∅ (∪)).
    by rewrite (assoc_L (∪)).
Qed.

Lemma fill_defaults_union (features : gmap string pynum) :
  fill_defaults features = features ∪ fill_defaults ∅.
Proof. apply fill_foldl_union. Qed.

(** X12: [get_features] never overrides a stored feature. Its result is
    the stored vector completed by the defaults: a key the store holds
    keeps its stored value (also a key outside the eight named ones), a
    key it does not hold gets its default, and all eight named features
    are present for every store and every id. *)
Theorem get_features_completes_stored now self u :
  (get_features now self u).1
  = (get_user_features now self u).1 ∪ fill_defaults ∅
  /\ (forall k x,
        (get_user_features now self u).1 !! k = Some x ->
        (get_features now self u).1 !! k = Some x)
  /\ (forall k,
        (get_user_features now self u).1 !! k = None ->
        (get_features now self u).1 !! k = fill_defaults ∅ !! k)
  /\ Forall (fun kv => is_Some ((get_features now self u).1 !! kv.1))
            default_features.
Proof.
  assert (E : (get_features now self u).1
              = (get_user_features now self u).1 ∪ fill_defaults ∅).
  { rewrite get_features_fst, get_user_features_fst.
    apply fill_defaults_union. }
  split; [exact E|]. split; [|split].
  - intros k x Hk. rewrite E. by apply lookup_union_Some_l.
  - intros k Hk. rewrite E. by apply lookup_union_r.
  - rewrite E. unfold default_features.
    repeat constructor; simpl;
      rewrite lookup_union;
      match goal with
      | |- is_Some (?o ∪ _) => destruct o; by eexists
      end.
Qed.

Variable datetime : Type.
Variable fromisoformat : string -> result datetime.
Variable dt_timestamp : datetime -> result Q.
Variable utc_offset : Z.
Variable sqrt : Q -> Q.

Lemma deque_append_nonempty (d : list Event) e : deque_append d e <> [].
Proof.
  destruct (deque_append_snoc d e) as [d' ->]. by destruct d'.
Qed.

Lemma sweep_keeps_nonempty now self u state :
  _store self !! u = Some state ->
  recent_events state <> [] ->
  exists state',
    _store (clear_old_entries now self).2 !! u = Some state'
    /\ feature_vector state' = feature_vector state.
Proof.
  intros Hl Hne. rewrite clear_old_entries_lookup, Hl.
  assert (R : to_remove (reap_cutoff now self) state = false).
  { destruct (to_remove _ state) eqn:R; [|reflexivity].
    apply to_remove_true in R. tauto. }
  rewrite R. unfold sweep_state. rewrite R. eauto.
Qed.

(** X13: what a call that returns true has done. Whenever
    [process_event] returns true, the epoch derivation returned an event
    that carries a user id, that user is in the store afterwards (also
    when the call ran a sweep), and [get_features] then reports as
    [transaction_velocity_1h] the number of events the one-hour read saw
    right after the append. *)
Theorem process_event_true_reports_velocity clock self event now' :
  (process_event datetime fromisoformat dt_timestamp utc_offset sqrt
                 clock self event).1 = true ->
  exists event' uid,
    ensure_timestamp_unix datetime fromisoformat dt_timestamp
                          (clock 0%nat) event = Ok event'
    /\ user_id event' = Some uid
    /\ is_Some (_store (process_event datetime fromisoformat dt_timestamp
                          utc_offset sqrt clock self event).2 !! uid)
    /\ (get_features now'
          (process_event datetime fromisoformat dt_timestamp utc_offset sqrt
                         clock self event).2 uid).1
         !! "transaction_velocity_1h"
       = Some (PInt (Z.of_nat
                       (length
                          (get_recent_events (clock 2%nat)
                             (update_user_events (clock 1%nat) self uid
                                                 event')
                             uid (Some 60))))).
Proof.
  unfold process_event, event_user_id.
  destruct (ensure_timestamp_unix _ _ _ _ event) as [event'|] eqn:He;
    [|discriminate].
  destruct (user_id event') as [uid|] eqn:Hu; [|discriminate].
  set (appended := update_user_events (clock 1%nat) self uid event').
  destruct (_calculate_features utc_offset sqrt clock appended uid)
    as [features|] eqn:Hf; [|discriminate].
  intros _. exists event', uid. split; [reflexivity|]. split; [exact Hu|].
  pose proof (calculate_features_velocity utc_offset sqrt clock appended uid
                features Hf) as Hv.
  set (updated := update_user_features (clock 5%nat) appended uid features).
  assert (Hup : exists state,
             _store updated !! uid = Some state
             /\ recent_events state <> []
             /\ feature_vector state !! "transaction_velocity_1h"
                = features !! "transaction_velocity_1h").
  { eexists. split; [apply update_user_features_lookup|]. simpl.
    split.
    - unfold state_or_new, appended. rewrite update_user_events_lookup.
      simpl. apply deque_append_nonempty.
    - rewrite Hv. apply lookup_union_Some_l. exact Hv. }
  destruct Hup as (state & Hstate & Hne & Hvec).
  assert (Hfinal :
            exists state',
              _store (if should_cleanup (clock 6%nat) updated
                      then (clear_old_entries (clock 7%nat) updated).2
                      else updated) !! uid = Some state'
              /\ feature_vector state' = feature_vector state).
  { destruct (should_cleanup _ _); [|eauto].
    by apply sweep_keeps_nonempty. }
  destruct Hfinal as (state' & Hstate' & Hvec').
  assert (Hread :
            forall final,
              _store final !! uid = Some state' ->
              (get_features now' final uid).1 !! "transaction_velocity_1h"
              = Some (PInt (Z.of_nat
                              (length (get_recent_events (clock 2%nat)
                                         appended uid (Some 60)))))).
  { intros final Hl. rewrite get_features_fst, fill_defaults_union.
    apply lookup_union_Some_l. unfold state_or_new. rewrite Hl. simpl.
    by rewrite Hvec', Hvec. }
  destruct (should_cleanup (clock 6%nat) updated); simpl;
    (split; [eauto|by apply Hread]).
Qed.

End filled_vector.

Lemma process_event_true_reports_velocity_witness :
  (streaming_features.process_event Z instance.iso_utc
     instance.utc_timestamp 3600 instance.sqrt_approx
     (instance.frozen 1700000000) (state_store.init_default 1700000000)
     (instance.iso_event "u" 10 "2023-11-14T22:13:20Z")).1 = true
  /\ exists event' uid,
       streaming_features.ensure_timestamp_unix Z instance.iso_utc
         instance.utc_timestamp 1700000000
         (instance.iso_event "u" 10 "2023-11-14T22:13:20Z") = Ok event'
       /\ user_id event' = Some uid
       /\ is_Some
            (state_store._store
               (streaming_features.process_event Z instance.iso_utc
                  instance.utc_timestamp 3600 instance.sqrt_approx
                  (instance.frozen 1700000000)
                  (state_store.init_default 1700000000)
                  (instance.iso_event "u" 10 "2023-11-14T22:13:20Z")).2
             !! uid)
       /\ (streaming_features.get_features 1700000001
             (streaming_features.process_event Z instance.iso_utc
                instance.utc_timestamp 3600 instance.sqrt_approx
                (instance.frozen 1700000000)
                (state_store.init_default 1700000000)
                (instance.iso_event "u" 10 "2023-11-14T22:13:20Z")).2 uid).1
            !! "transaction_velocity_1h"
          = Some (PInt (Z.of_nat
                          (length
                             (state_store.get_recent_events 1700000000
                                (state_store.update_user_events 1700000000
                                   (state_store.init_default 1700000000)
                                   uid event')
                                uid (Some 60%Z))))).
Proof.
  split; [reflexivity|].
  apply (process_event_true_reports_velocity Z instance.iso_utc
           instance.utc_timestamp 3600 instance.sqrt_approx
           (instance.frozen 1700000000) (state_store.init_default 1700000000)
           (instance.iso_event "u" 10 "2023-11-14T22:13:20Z") 1700000001).
  reflexivity.
Defined.

(** * Further properties of the time utilities *)
Section time_more.
Import time_utils state_store store_run windowed instance.

(** X14: whenever [get_time_features] returns, the hour is in 0..23, the
    weekday in 0..6, [is_weekend] is 1 exactly on weekdays 5 and 6 and 0
    otherwise, and [is_business_hours] is 1 exactly for the hours 9..17
    and 0 otherwise. *)
Theorem time_features_ranges (utc_offset : Z) (timestamp : Q) tf :
  get_time_features utc_offset timestamp = Ok tf ->
  0 <= hour_of_day tf <= 23
  /\ 0 <= day_of_week tf <= 6
  /\ (is_weekend tf = 1 <-> 5 <= day_of_week tf)
  /\ (is_weekend tf = 0 <-> day_of_week tf < 5)
  /\ (is_business_hours tf = 1 <-> 9 <= hour_of_day tf <= 17)
  /\ (is_business_hours tf = 0
      <-> hour_of_day tf < 9 \/ 17 < hour_of_day tf).
Proof.
  unfold get_time_features.
  set (secs := round_half_even (timestamp * 1000000) / 1000000 + utc_offset).
  destruct (civil_from_days (secs / 86400)) as [[y m] d].
  destruct ((y <? 1) || (9999 <? y)).
  - discriminate.
  - intros [= <-]. simpl.
    assert (Hh : 0 <= secs mod 86400 / 3600 <= 23).
    { pose proof (Z.mod_pos_bound secs 86400 ltac:(lia)) as Hm.
      split.
      - apply Z.div_pos; lia.
      - apply Z.lt_succ_r, Z.div_lt_upper_bound; lia. }
    assert (Hd : 0 <= (secs / 86400 + 3) mod 7 <= 6).
    { pose proof (Z.mod_pos_bound (secs / 86400 + 3) 7 ltac:(lia)). lia. }
    split; [exact Hh|]. split; [exact Hd|].
    destruct (Z.leb_spec 5 ((secs / 86400 + 3) mod 7));
      destruct (Z.leb_spec 9 (secs mod 86400 / 3600));
      destruct (Z.leb_spec (secs mod 86400 / 3600) 17);
      simpl; repeat split; intros; try lia; try discriminate.
Qed.

Lemma is_within_window_spec now timestamp minutes :
  is_within_window now timestamp minutes = true
  <-> (now - inject_Z (minutes * 60) <= timestamp)%Q.
Proof.
  unfold is_within_window, Qleb. rewrite Qle_bool_iff. split; intros; lra.
Qed.

(** X15: the two window tests of the repository differ on the boundary.
    For a window size other than 0, an event of a user's history is in
    the windowed read exactly when [is_within_window] accepts its epoch
    and the epoch is not equal to the cutoff [now - minutes * 60]: the
    read excludes the boundary instant that [is_within_window]
    includes. *)
Theorem windowed_read_is_within_window_minus_boundary
    now self u state minutes e :
  _store self !! u = Some state ->
  minutes <> 0 ->
  e ∈ recent_events state ->
  (e ∈ get_recent_events now self u (Some minutes)
   <-> is_within_window now (get_timestamp_unix e) minutes = true
       /\ ~ (get_timestamp_unix e == now - inject_Z (minutes * 60))%Q).
Proof.
  intros Hl Hm Hin.
  rewrite (get_recent_events_known _ _ _ _ _ Hl). simpl.
  destruct (Z.eqb_spec minutes 0) as [E|_]; [contradiction|].
  unfold windowed_spec, timestampEpoch.
  rewrite list_elem_of_filter, is_within_window_spec.
  split.
  - intros [Hlt _]. split; [by apply Qlt_le_weak|].
    intros Heq. rewrite Heq in Hlt. exact (Qlt_irrefl _ Hlt).
  - intros [Hle Hne]. split; [|exact Hin].
    destruct (Qle_lt_or_eq _ _ Hle) as [Hlt|Heq]; [exact Hlt|].
    exfalso. apply Hne. symmetry. exact Heq.
Qed.

End time_more.

Lemma time_features_ranges_witness :
  0 <= 22 <= 23 /\ 0 <= 1 <= 6
  /\ (0 = 1 <-> 5 <= 1) /\ (0 = 0 <-> 1 < 5)
  /\ (0 = 1 <-> 9 <= 22 <= 17) /\ (0 = 0 <-> 22 < 9 \/ 17 < 22).
Proof.
  apply (time_features_ranges 0 1700000000
           {| time_utils.hour_of_day := 22;
              time_utils.day_of_week := 1;
              time_utils.is_weekend := 0;
              time_utils.is_business_hours := 0;
              time_utils.month := 11;
              time_utils.day_of_month := 14 |}).
  reflexivity.
Defined.

Lemma windowed_read_is_within_window_minus_boundary_witness :
  instance.sample_event "u" 10 1699999990
    ∈ state_store.get_recent_events 1700000000 instance.recent_store "u"
        (Some 60%Z)
  <-> time_utils.is_within_window 1700000000
        (get_timestamp_unix (instance.sample_event "u" 10 1699999990)) 60
      = true
      /\ ~ (get_timestamp_unix (instance.sample_event "u" 10 1699999990)
            == 1700000000 - inject_Z (60 * 60))%Q.
Proof.
  apply (windowed_read_is_within_window_minus_boundary 1700000000
           instance.recent_store "u"
           {| state_store.recent_events :=
                [instance.sample_event "u" 10 1699999990];
              state_store.feature_vector := ∅;
              state_store.last_updated := 1700000000;
              state_store.created_at := 1700000000 |}
           60%Z (instance.sample_event "u" 10 1699999990)).
  - reflexivity.
  - discriminate.
  - apply list_elem_of_here.
Defined.

(** * Properties of validation *)
Section validation.
Import time_utils state_store store_run streaming_features.
Import validation_utils api instance.

Lemma is_number_pyval_of_pynum (v : pynum) : is_number (pyval_of_pynum v) = true.
Proof. by destruct v. Qed.

Lemma get_features_has_default now self u k x :
  fill_defaults ∅ !! k = Some x ->
  exists v, (get_features now self u).1 !! k = Some v.
Proof.
  intros Hk. rewrite get_features_fst, fill_defaults_union, lookup_union.
  destruct (feature_vector (state_or_new now self u) !! k) as [v|];
    rewrite Hk; eauto.
Qed.

(** X17: every vector returned by the engine's [get_features] passes
    [validate_feature_vector], for every store and every id, known or
    not. *)
Theorem engine_features_pass_validation now self u :
  validate_feature_vector (pyval_of_pynum <$> (get_features now self u).1)
  = (true, None).
Proof.
  unfold validate_feature_vector, required_features.
  cbn [validate_features_from]. rewrite !lookup_fmap.
  destruct (get_features_has_default now self u "transaction_velocity_1h"
              (PFloat 0) eq_refl) as [v1 ->].
  destruct (get_features_has_default now self u "amount_zscore"
              (PFloat 0) eq_refl) as [v2 ->].
  destruct (get_features_has_default now self u "location_anomaly"
              (PInt 0) eq_refl) as [v3 ->].
  destruct (get_features_has_default now self u "time_pattern_score"
              (PFloat 0) eq_refl) as [v4 ->].
  simpl. by rewrite !is_number_pyval_of_pynum.
Qed.

Lemma event_dict_lookups (event : TransactionEvent) :
  event_dict event !! "user_id" = Some (VStr (te_user_id event))
  /\ event_dict event !! "transaction_id"
     = Some (VStr (te_transaction_id event))
  /\ event_dict event !! "amount" = Some (VFloat (te_amount event))
  /\ event_dict event !! "timestamp" = Some (VStr (te_timestamp event))
  /\ event_dict event !! "merchant" = Some (opt_field (te_merchant event))
  /\ event_dict event !! "location" = Some (opt_field (te_location event))
  /\ event_dict event !! "payment_method"
     = Some (opt_field (te_payment_method event)).
Proof. repeat split; reflexivity. Qed.

(** X18: which requests pass validation. The dict of a request passes
    [validate_event] exactly when the user id and the transaction id are
    not blank, the amount is not negative and all three optional fields
    were sent: [event.dict()] holds [None] under an optional field that
    was not sent, and [validate_event] rejects a present value that is
    not a string. A request that is otherwise valid but omits the
    merchant is rejected with "merchant must be a string". *)
Theorem api_request_passes_validation_iff (event : TransactionEvent) :
  ((validate_event (ADict (event_dict event))).1 = true
   <-> py_strip (te_user_id event) <> ""
       /\ py_strip (te_transaction_id event) <> ""
       /\ (0 <= te_amount event)%Q
       /\ is_Some (te_merchant event)
       /\ is_Some (te_location event)
       /\ is_Some (te_payment_method event))
  /\ (py_strip (te_user_id event) <> "" ->
      py_strip (te_transaction_id event) <> "" ->
      (0 <= te_amount event)%Q ->
      te_merchant event = None ->
      validate_event (ADict (event_dict event))
      = (false, Some "merchant must be a string")).
Proof.
  destruct (event_dict_lookups event)
    as (Hu & Ht & Ha & Hts & Hm & Hl & Hp).
  assert (Hmiss : first_missing REQUIRED_EVENT_FIELDS (event_dict event)
                  = None).
  { unfold REQUIRED_EVENT_FIELDS. cbn [first_missing].
    by rewrite Hu, Ht, Ha, Hts. }
  unfold validate_event. rewrite Hmiss.
  unfold field_is, present_not_str. rewrite Hu, Ht, Ha, Hts, Hm, Hl, Hp.
  cbn [nonblank_str nonnegative_number number_value is_str].
  destruct (String.eqb_spec (py_strip (te_user_id event)) "") as [Eu|Eu];
    cbn [negb].
  { split; [|by intros ?]. split; [discriminate|]. by intros [? _]. }
  destruct (String.eqb_spec (py_strip (te_transaction_id event)) "")
    as [Et|Et]; cbn [negb].
  { split; [|by intros _ ?]. split; [discriminate|]. by intros (_ & ? & _). }
  destruct (Qltb (te_amount event) 0) eqn:Ea; cbn [negb].
  { apply Qltb_lt in Ea. split.
    - split; [discriminate|]. intros (_ & _ & Hge & _).
      exfalso. exact (Qlt_not_le _ _ Ea Hge).
    - intros _ _ Hge. exfalso. exact (Qlt_not_le _ _ Ea Hge). }
  apply Qltb_ge in Ea.
  destruct (te_merchant event) as [m|]; cbn [opt_field is_str negb].
  2:{ split; [|done]. split; [discriminate|].
      intros (_ & _ & _ & [? Hs] & _). discriminate Hs. }
  destruct (te_location event) as [l|]; cbn [opt_field is_str negb].
  2:{ split; [|discriminate]. split; [discriminate|].
      intros (_ & _ & _ & _ & [? Hs] & _). discriminate Hs. }
  destruct (te_payment_method event) as [p|]; cbn [opt_field is_str negb].
  2:{ split; [|discriminate]. split; [discriminate|].
      intros (_ & _ & _ & _ & _ & [? Hs]). discriminate Hs. }
  split; [|discriminate]. split; [|reflexivity].
  intros _. repeat split; eauto.
Qed.

End validation.

Lemma api_request_passes_validation_iff_witness :
  validation_utils.validate_event
    (validation_utils.ADict
       (api.event_dict
          {| api.te_user_id := "user_001";
             api.te_transaction_id := "txn_001";
             api.te_amount := 100;
             api.te_timestamp := "2023-11-14T22:13:20Z";
             api.te_merchant := None;
             api.te_location := Some "Berlin";
             api.te_payment_method := Some "card" |}))
  = (false, Some "merchant must be a string").
Proof.
  apply (proj2 (api_request_passes_validation_iff
                  {| api.te_user_id := "user_001";
                     api.te_transaction_id := "txn_001";
                     api.te_amount := 100;
                     api.te_timestamp := "2023-11-14T22:13:20Z";
                     api.te_merchant := None;
                     api.te_location := Some "Berlin";
                     api.te_payment_method := Some "card" |})).
  - discriminate.
  - discriminate.
  - discriminate.
  - reflexivity.
Defined.

(** ** From a validated dict to the engine *)
Section validated.
Import time_utils state_store store_run streaming_features.
Import validation_utils api instance.

Variable datetime : Type.
Variable fromisoformat : string -> result datetime.
Variable dt_timestamp : datetime -> result Q.

Hypothesis fromisoformat_raises :
  forall s e, fromisoformat s = Raise e -> e = ValueError.
Hypothesis dt_timestamp_raises :
  forall dt e, dt_timestamp dt = Raise e -> e = ValueError.

Lemma copy_step_lookup (event : gmap string pyval) (fields : list string)
    (acc : gmap string pyval) (k : string) :
  foldl (fun sanitized field =>
           match event !! field with
           | Some value => <[field := sanitize_value value]> sanitized
           | None => sanitized
           end) acc fields !! k
  = if decide (k ∈ fields)
    then match event !! k with
         | Some v => Some (sanitize_value v)
         | None => acc !! k
         end
    else acc !! k.
Proof.
  revert acc. induction fields as [|x fields IH]; intros acc; cbn [foldl].
  - destruct (decide (k ∈ [])) as [Hin|_]; [|reflexivity].
    by apply not_elem_of_nil in Hin.
  - rewrite IH. destruct (decide (x = k)) as [->|Hne].
    + rewrite (decide_True (P := k ∈ k :: fields))
        by apply list_elem_of_here.
      destruct (event !! k) as [v|] eqn:Ek.
      * rewrite lookup_insert_eq. by destruct (decide (k ∈ fields)).
      * by destruct (decide (k ∈ fields)).
    + assert (Hacc : match event !! x with
                     | Some value => <[x := sanitize_value value]> acc
                     | None => acc
                     end !! k = acc !! k).
      { destruct (event !! x); [by rewrite lookup_insert_ne|reflexivity]. }
      rewrite Hacc.
      destruct (decide (k ∈ fields)) as [Hin|Hnin].
      * by rewrite decide_True by (by apply list_elem_of_further).
      * rewrite decide_False; [reflexivity|].
        intros [E|Hin]%elem_of_cons; [by subst|contradiction].
Qed.

(** [sanitize_event] keeps the seven known keys, stripped, and drops
    every other key. *)
Lemma copy_fields_lookup (event : gmap string pyval) (k : string) :
  copy_fields (REQUIRED_EVENT_FIELDS ++ OPTIONAL_EVENT_FIELDS) event !! k
  = if decide (k ∈ REQUIRED_EVENT_FIELDS ++ OPTIONAL_EVENT_FIELDS)
    then sanitize_value <$> event !! k
    else None.
Proof.
  unfold copy_fields. rewrite copy_step_lookup, lookup_empty.
  destruct (decide _); [|reflexivity]. by destruct (event !! k).
Qed.

(** What a dict that passes [validate_event] holds. *)
Lemma validate_event_accepts (d : gmap string pyval) :
  validate_event (ADict d) = (true, None) ->
  (exists s, d !! "user_id" = Some (VStr s) /\ py_strip s <> "")
  /\ (exists s, d !! "transaction_id" = Some (VStr s) /\ py_strip s <> "")
  /\ (exists v q, d !! "amount" = Some v /\ number_value v = Some q
                  /\ (0 <= q)%Q)
  /\ (exists s, d !! "timestamp" = Some (VStr s))
  /\ (forall k, k ∈ OPTIONAL_EVENT_FIELDS ->
                d !! k = None \/ exists s, d !! k = Some (VStr s)).
Proof.
  unfold validate_event, REQUIRED_EVENT_FIELDS. cbn [first_missing].
  unfold field_is, present_not_str.
  destruct (d !! "user_id") as [vu|] eqn:Eu; [|discriminate].
  destruct (d !! "transaction_id") as [vt|] eqn:Et; [|discriminate].
  destruct (d !! "amount") as [va|] eqn:Ea; [|discriminate].
  destruct (d !! "timestamp") as [vs|] eqn:Es; [|discriminate].
  destruct (nonblank_str vu) eqn:Hu; [|discriminate]. cbn [negb].
  destruct (nonblank_str vt) eqn:Ht; [|discriminate]. cbn [negb].
  destruct (nonnegative_number va) eqn:Hna; [|discriminate]. cbn [negb].
  destruct (is_str vs) eqn:Hs; [|discriminate]. cbn [negb].
  intros Hopt.
  split.
  { destruct vu; try discriminate. eexists. split; [reflexivity|].
    simpl in Hu. by destruct (String.eqb_spec (py_strip s) ""). }
  split.
  { destruct vt; try discriminate. eexists. split; [reflexivity|].
    simpl in Ht. by destruct (String.eqb_spec (py_strip s) ""). }
  split.
  { unfold nonnegative_number in Hna.
    destruct (number_value va) as [q|] eqn:Hq; [|discriminate].
    exists va, q. split; [reflexivity|]. split; [exact Hq|].
    apply Qltb_ge. by destruct (Qltb q 0). }
  split.
  { destruct vs; try discriminate. eauto. }
  intros k Hk. unfold OPTIONAL_EVENT_FIELDS in Hk.
  assert (Hcase : k = "merchant" \/ k = "location" \/ k = "payment_method").
  { apply elem_of_cons in Hk as [->|Hk]; [by left|].
    apply elem_of_cons in Hk as [->|Hk]; [by right; left|].
    apply elem_of_cons in Hk as [->|Hk]; [by right; right|].
    by apply not_elem_of_nil in Hk. }
  assert (Hstr : forall key,
             present_not_str d key = false ->
             d !! key = None \/ exists s, d !! key = Some (VStr s)).
  { intros key. unfold present_not_str.
    destruct (d !! key) as [v|]; [|by left].
    destruct v; try discriminate. right. eauto. }
  fold (present_not_str d "merchant") in Hopt.
  fold (present_not_str d "location") in Hopt.
  fold (present_not_str d "payment_method") in Hopt.
  destruct (present_not_str d "merchant") eqn:Em; [discriminate|].
  destruct (present_not_str d "location") eqn:El; [discriminate|].
  destruct (present_not_str d "payment_method") eqn:Ep; [discriminate|].
  destruct Hcase as [-> | [-> | ->]]; by apply Hstr.
Qed.

Ltac in_list := apply list_elem_of_In; simpl; tauto.

Lemma sanitize_value_number (v : pyval) q :
  number_value v = Some q -> sanitize_value v = v.
Proof. by destruct v. Qed.

(** X19: a dict that passes [validate_event] goes through
    [sanitize_event] without an exception (the library calls being taken
    to fail by [ValueError]) and comes out as an event the engine
    accepts: the user id is the stripped one and is not empty, the
    amount is a non-negative number, [timestamp_unix] is set, so that
    [process_event] neither parses the timestamp again nor fails on a
    missing user id; keys other than the seven known ones are dropped. *)
Theorem validated_event_reaches_engine now now' (d : gmap string pyval) :
  validate_event (ADict d) = (true, None) ->
  exists d' event s a t,
    sanitize_event datetime fromisoformat dt_timestamp now d = Ok d'
    /\ engine_view d' = Some event
    /\ d !! "user_id" = Some (VStr s)
    /\ user_id event = Some (py_strip s) /\ py_strip s <> ""
    /\ amount event = Some a /\ (0 <= a)%Q
    /\ timestamp_unix event = Some t
    /\ ensure_timestamp_unix datetime fromisoformat dt_timestamp now' event
       = Ok event
    /\ event_user_id event = Ok (py_strip s)
    /\ (forall k,
          k ∉ "timestamp_unix"
              :: REQUIRED_EVENT_FIELDS ++ OPTIONAL_EVENT_FIELDS ->
          d' !! k = None).
Proof.
  intros Hvalid.
  destruct (validate_event_accepts d Hvalid)
    as ((su & Eu & Hsu) & (st & Et & Hst) & (va & q & Ea & Hq & Hq0)
        & (ts & Es) & Hopt).
  set (sanitized :=
         copy_fields (REQUIRED_EVENT_FIELDS ++ OPTIONAL_EVENT_FIELDS) d).
  assert (Hlook : forall k,
             k ∈ REQUIRED_EVENT_FIELDS ++ OPTIONAL_EVENT_FIELDS ->
             sanitized !! k = sanitize_value <$> d !! k).
  { intros k Hk. unfold sanitized. rewrite copy_fields_lookup.
    by rewrite decide_True. }
  assert (Hdrop : forall k,
             k ∉ REQUIRED_EVENT_FIELDS ++ OPTIONAL_EVENT_FIELDS ->
             sanitized !! k = None).
  { intros k Hk. unfold sanitized. rewrite copy_fields_lookup.
    by rewrite decide_False. }
  destruct (parse_timestamp_str_returns datetime fromisoformat dt_timestamp
              fromisoformat_raises dt_timestamp_raises now (py_strip ts))
    as [t Ht].
  assert (Hsan : sanitize_event datetime fromisoformat dt_timestamp now d
                 = Ok (<["timestamp_unix" := VFloat t]> sanitized)).
  { unfold sanitize_event. fold sanitized.
    rewrite (Hlook "timestamp") by in_list. rewrite Es. simpl.
    rewrite Ht. reflexivity. }
  set (d' := <["timestamp_unix" := VFloat t]> sanitized).
  assert (Hu' : d' !! "user_id" = Some (VStr (py_strip su))).
  { unfold d'. rewrite lookup_insert_ne by done.
    rewrite (Hlook "user_id") by in_list. by rewrite Eu. }
  assert (Ht' : d' !! "transaction_id" = Some (VStr (py_strip st))).
  { unfold d'. rewrite lookup_insert_ne by done.
    rewrite (Hlook "transaction_id") by in_list. by rewrite Et. }
  assert (Ha' : d' !! "amount" = Some va).
  { unfold d'. rewrite lookup_insert_ne by done.
    rewrite (Hlook "amount") by in_list. rewrite Ea. simpl.
    by rewrite (sanitize_value_number va q Hq). }
  assert (Hx' : d' !! "timestamp_unix" = Some (VFloat t))
    by apply lookup_insert_eq.
  assert (Hopt' : forall k,
             k ∈ OPTIONAL_EVENT_FIELDS ->
             exists o, as_opt_str (d' !! k) = Some o).
  { intros k Hk. unfold d'.
    assert (Hne : k <> "timestamp_unix").
    { intros ->. apply list_elem_of_In in Hk. simpl in Hk.
      intuition discriminate. }
    rewrite lookup_insert_ne by done.
    rewrite Hlook by (apply elem_of_app; by right).
    destruct (Hopt k Hk) as [->|[s ->]]; simpl; eauto. }
  destruct (Hopt' "merchant" ltac:(in_list)) as [om Hm].
  destruct (Hopt' "location" ltac:(in_list)) as [ol Hl].
  destruct (Hopt' "payment_method" ltac:(in_list)) as [op Hp].
  eexists d', _, su, q, t. split; [exact Hsan|].
  split.
  { unfold engine_view. rewrite Hu', Ht', Ha', Hx', Hm, Hl, Hp.
    simpl. rewrite Hq. simpl. reflexivity. }
  split; [exact Eu|]. simpl.
  split; [reflexivity|]. split; [exact Hsu|].
  split; [reflexivity|]. split; [exact Hq0|].
  split; [reflexivity|]. split; [reflexivity|]. split; [reflexivity|].
  intros k Hk. unfold d'.
  rewrite lookup_insert_ne by (intros <-; apply Hk, list_elem_of_here).
  apply Hdrop. intros Hin. apply Hk. by apply list_elem_of_further.
Qed.

End validated.

Lemma validated_event_reaches_engine_witness :
  exists d' event s a t,
    validation_utils.sanitize_event Z instance.iso_utc instance.utc_timestamp
      1700000123
      (api.event_dict
         {| api.te_user_id := " user_001 ";
            api.te_transaction_id := "txn_001";
            api.te_amount := 100;
            api.te_timestamp := "2023-11-14T22:13:20Z";
            api.te_merchant := Some "shop";
            api.te_location := Some "Berlin";
            api.te_payment_method := Some "card" |}) = Ok d'
    /\ validation_utils.engine_view d' = Some event
    /\ api.event_dict
         {| api.te_user_id := " user_001 ";
            api.te_transaction_id := "txn_001";
            api.te_amount := 100;
            api.te_timestamp := "2023-11-14T22:13:20Z";
            api.te_merchant := Some "shop";
            api.te_location := Some "Berlin";
            api.te_payment_method := Some "card" |} !! "user_id"
       = Some (validation_utils.VStr s)
    /\ user_id event = Some (validation_utils.py_strip s)
    /\ validation_utils.py_strip s <> ""
    /\ amount event = Some a /\ (0 <= a)%Q
    /\ timestamp_unix event = Some t
    /\ streaming_features.ensure_timestamp_unix Z instance.iso_utc
         instance.utc_timestamp 1700000124 event = Ok event
    /\ streaming_features.event_user_id event
       = Ok (validation_utils.py_strip s)
    /\ (forall k,
          k ∉ "timestamp_unix"
              :: validation_utils.REQUIRED_EVENT_FIELDS
                 ++ validation_utils.OPTIONAL_EVENT_FIELDS ->
          d' !! k = None).
Proof.
  apply (validated_event_reaches_engine Z instance.iso_utc
           instance.utc_timestamp iso_utc_raises utc_timestamp_raises
           1700000123 1700000124).
  reflexivity.
Defined.

(** * The capacity along runs of the engine *)
Section engine_capacity.
Import state_store store_run streaming_features engine_run instance.

Variable datetime : Type.
Variable fromisoformat : string -> result datetime.
Variable dt_timestamp : datetime -> result Q.
Variable utc_offset : Z.
Variable sqrt : Q -> Q.

Lemma run_events_bounded calls self :
  bounded self ->
  bounded (run_events datetime fromisoformat dt_timestamp utc_offset sqrt
                      self calls).
Proof.
  revert self. induction calls as [|call calls IH]; intros self Hb.
  - exact Hb.
  - unfold run_events. cbn [foldl]. apply IH.
    by apply process_event_bounded.
Qed.

(** X20: the capacity holds along every run of the engine. After any
    sequence of [process_event] calls on a new store, with any events,
    clocks and outcomes (successes, failures, sweeps), every history
    holds at most 1000 events, so [total_events] is at most 1000 times
    [total_users]. *)
Theorem engine_run_within_capacity now0 mw ci calls :
  (forall u state,
     _store (run_events datetime fromisoformat dt_timestamp utc_offset sqrt
                        (__init__ now0 mw ci) calls) !! u = Some state ->
     (length (recent_events state) <= 1000)%nat)
  /\ (total_events
        (get_stats (run_events datetime fromisoformat dt_timestamp
                               utc_offset sqrt (__init__ now0 mw ci) calls))
      <= 1000 * total_users
                  (get_stats (run_events datetime fromisoformat dt_timestamp
                                         utc_offset sqrt
                                         (__init__ now0 mw ci) calls)))%nat.
Proof.
  pose proof (run_events_bounded calls _ (bounded_init now0 mw ci)) as Hb.
  split; [exact Hb|]. by apply total_events_bounded.
Qed.

End engine_capacity.
